(** * Rule-repair agent of inbox-zero: a shallow embedding of
    [apps/web/utils/ai/assistant/fix-rules.ts]

    The file embeds the rule serializer ([ruleToXML] and its helpers), the
    per-session tool registry built inside [processUserRequest] and the
    [execute] step of every tool, and states the properties of the
    natural-language specification over them.

    Conventions of the embedding:
    - a nullable or optional TypeScript value is an [option];
    - JavaScript truthiness is written out: a string is truthy when it is
      present and non-empty ([truthy]), an object or an array is truthy when
      it is present, whatever its length ([present]);
    - calls to the rule store ([safeUpdateRule], [safeCreateRule],
      [addGroupItem], [deleteGroupItem]) are recorded, in order, in a trace
      threaded through a small writer monad; logging is not modelled. *)

From Stdlib Require Import String Ascii List Bool Arith Lia.
Import ListNotations.
Open Scope list_scope.
Open Scope string_scope.

Set Implicit Arguments.

(** ** JavaScript strings and truthiness *)

Definition nl : string := String (ascii_of_nat 10) EmptyString.
Definition dq : string := String (ascii_of_nat 34) EmptyString.

(** [s ? a : b] on a [string | null | undefined]: the empty string is falsy. *)
Definition truthy (o : option string) : bool :=
  match o with
  | Some s => negb (s =? "")
  | None => false
  end.

(** [o ? a : b] on an object or array reference: every reference is truthy. *)
Definition present {A : Type} (o : option A) : bool :=
  match o with
  | Some _ => true
  | None => false
  end.

(** [s.includes(pat)], used to state what a serialized rule contains. *)
Fixpoint includes (pat s : string) : bool :=
  if prefix pat s then true
  else match s with
       | EmptyString => false
       | String _ rest => includes pat rest
       end.

(** ** Rule model ([RuleWithRelations] and the Prisma enums it uses) *)

(** [GroupItemType] is given the members the agent refers to. *)
Inductive LogicalOperator := AND | OR.
Inductive GroupItemType := FROM | SUBJECT.
Inductive CategoryFilterType := INCLUDE | EXCLUDE.

Definition LogicalOperator_str (o : LogicalOperator) : string :=
  match o with AND => "AND" | OR => "OR" end.
Definition GroupItemType_str (t : GroupItemType) : string :=
  match t with FROM => "FROM" | SUBJECT => "SUBJECT" end.
Definition CategoryFilterType_str (t : CategoryFilterType) : string :=
  match t with INCLUDE => "INCLUDE" | EXCLUDE => "EXCLUDE" end.

Definition GroupItemType_eqb (a b : GroupItemType) : bool :=
  match a, b with
  | FROM, FROM | SUBJECT, SUBJECT => true
  | _, _ => false
  end.

Record GroupItem := {
  item_id : string;
  item_type : GroupItemType;
  item_value : string
}.

Record Group := {
  group_id : string;
  group_name : string;
  items : option (list GroupItem)
}.

Record Category := { category_name : string }.

Record Rule (Action : Type) := {
  rule_id : string;
  name : string;
  instructions : option string;
  from : option string;
  to : option string;
  subject : option string;
  body : option string;
  conditionalOperator : LogicalOperator;
  actions : list Action;
  group : option Group;
  categoryFilters : option (list Category);
  categoryFilterType : option CategoryFilterType
}.

(** ** Rule serializer *)

Section Serializer.
Context {Action : Type}.

(** [rule.from || rule.to || rule.subject || rule.body], read as a
    condition. *)
Definition hasStaticConditions (rule : Rule Action) : bool :=
  truthy (from rule) || truthy (to rule)
  || truthy (subject rule) || truthy (body rule).

(** [rule.categoryFilters && rule.categoryFilters.length > 0] *)
Definition hasCategoryConditions (rule : Rule Action) : bool :=
  match categoryFilters rule with
  | Some cs => Nat.ltb 0 (List.length cs)
  | None => false
  end.

(** [${v ? `<tag>${v}</tag>` : ""}] *)
Definition optElem (tag : string) (v : option string) : string :=
  match v with
  | Some s => if negb (s =? "") then "<" ++ tag ++ ">" ++ s ++ "</" ++ tag ++ ">"
              else ""
  | None => ""
  end.

Definition staticInner (rule : Rule Action) : string :=
  nl ++ "      " ++ optElem "from" (from rule) ++
  nl ++ "      " ++ optElem "to" (to rule) ++
  nl ++ "      " ++ optElem "subject" (subject rule) ++
  nl ++ "      " ++ optElem "body" (body rule) ++
  nl ++ "    ".

Definition staticConditionsXML (rule : Rule Action) : string :=
  if hasStaticConditions rule
  then "<static_conditions>" ++ staticInner rule ++ "</static_conditions>"
  else "".

Definition itemXML (item : GroupItem) : string :=
  "<item>" ++ nl ++
  "  <type>" ++ GroupItemType_str (item_type item) ++ "</type>" ++ nl ++
  "  <value>" ++ item_value item ++ "</value>" ++ nl ++
  "</item>".

Definition groupItemsXML (g : Group) : string :=
  match items g with
  | Some its => String.concat (nl ++ "      ") (List.map itemXML its)
  | None => "No group items"
  end.

Definition groupConditionXML (rule : Rule Action) : string :=
  match group rule with
  | Some g =>
      "<group_condition>" ++ nl ++
      "      <group>" ++ group_name g ++ "</group>" ++ nl ++
      "      <group_items>" ++ nl ++
      "        " ++ groupItemsXML g ++ nl ++
      "      </group_items>" ++ nl ++
      "    </group_condition>"
  | None => ""
  end.

Definition categoryConditionsXML (rule : Rule Action) : string :=
  if hasCategoryConditions rule
  then "<category_conditions>" ++ nl ++
       "      " ++ match categoryFilterType rule with
                   | Some ft => "<filter_type>" ++ CategoryFilterType_str ft
                                ++ "</filter_type>"
                   | None => ""
                   end ++ nl ++
       "      " ++ match categoryFilters rule with
                   | Some cs =>
                       String.concat (nl ++ "      ")
                         (List.map (fun category =>
                                 "<category>" ++ category_name category
                                 ++ "</category>") cs)
                   | None => "undefined"
                   end ++ nl ++
       "    </category_conditions>"
  else "".

(** Everything [ruleToXML] writes before the static-conditions slot. *)
Definition ruleHead (rule : Rule Action) : string :=
  "<rule>" ++ nl ++
  "  <rule_name>" ++ name rule ++ "</rule_name>" ++ nl ++
  "  <conditions>" ++ nl ++
  "    <conditional_operator>" ++ LogicalOperator_str (conditionalOperator rule)
    ++ "</conditional_operator>" ++ nl ++
  "    " ++ optElem "ai_instructions" (instructions rule) ++ nl ++
  "    ".

(** Everything [ruleToXML] writes after the static-conditions slot. *)
Definition ruleTail (rule : Rule Action) : string :=
  nl ++
  "    " ++ groupConditionXML rule ++ nl ++
  "    " ++ categoryConditionsXML rule ++ nl ++
  "  </conditions>" ++ nl ++
  "</rule>".

Definition ruleToXML (rule : Rule Action) : string :=
  ruleHead rule ++ staticConditionsXML rule ++ ruleTail rule.

End Serializer.

(** ** The rule store, seen through the calls made to it *)

(** A small writer monad: a computation receives the trace of store calls
    made so far and returns its value with the extended trace.  An [await]ed
    store call is [call]; the value it resolves to is never inspected by the
    agent. *)
Definition Trace (Call : Type) : Type := list Call.
Definition M (Call A : Type) : Type := Trace Call -> A * Trace Call.

Definition ret {Call A : Type} (a : A) : M Call A := fun tr => (a, tr).

Definition bind {Call A B : Type} (m : M Call A) (k : A -> M Call B)
  : M Call B :=
  fun tr => let (a, tr') := m tr in k a tr'.

Definition call {Call : Type} (c : Call) : M Call unit :=
  fun tr => (tt, (tr ++ [c])%list).

Notation "x <- m ;; k" := (bind m (fun x => k))
  (at level 61, m at next level, right associativity).
Notation "m ;; k" := (bind m (fun _ => k))
  (at level 61, right associativity).

(** [{ success: true }] or [{ error: <reason> }] *)
Inductive Payload :=
| Success
| Error (reason : string).

(** [getGroupItemType]: falls off the end ([undefined]) on any other string. *)
Definition getGroupItemType (type : string) : option GroupItemType :=
  if type =? "from" then Some FROM
  else if type =? "subject" then Some SUBJECT
  else None.

(** [a === b] on [string | undefined]. *)
Definition strictEq (a b : option string) : bool :=
  match a, b with
  | Some x, Some y => x =? y
  | None, None => true
  | _, _ => false
  end.

Record User := {
  user_id : string;
  email : option string;
  about : option string
}.

Section Agent.
Context {Condition Action : Type}.

(** The object literal [{ name, condition, actions }] handed to the store. *)
Record RuleBody := {
  body_name : string;
  body_condition : Condition;
  body_actions : list Action
}.

Inductive StoreCall :=
| safeUpdateRule (ruleId : string) (body : RuleBody) (userId : string)
    (groupId : option string) (categoryIds : option (list string))
| safeCreateRule (body : RuleBody) (userId : string)
    (groupId : option string) (categoryIds : option (list string))
| addGroupItem (groupId : string) (type : GroupItemType) (value : string)
| deleteGroupItem (id : string) (userId : string).

(** The arguments of [processUserRequest].  The two messages are kept as the
    [content] that [getEmailFromMessage] extracts from them; [gmail] is never
    used.  [categories] has type [[string, ...string[]] | null]. *)
Record Session := {
  user : User;
  rules : list (Rule Action);
  userRequestEmail : string;
  originalEmail : string;
  matchedRule : option (Rule Action);
  categories : option (string * list string);
  senderCategory : option string
}.

Definition Exec : Type := M StoreCall Payload.

(** *** [execute] of each tool *)

(** [ruleName ? rules.find((r) => r.name === ruleName) : matchedRule] *)
Definition edit_rule_target (s : Session) (ruleName : option string)
  : option (Rule Action) :=
  match ruleName with
  | Some n => if negb (n =? "")
              then List.find (fun r => name r =? n) (rules s)
              else matchedRule s
  | None => matchedRule s
  end.

Definition edit_rule_execute (s : Session)
  (ruleName : option string) (explanation : string) (condition : Condition)
  : Exec :=
  match edit_rule_target s ruleName with
  | None => ret (Error "Rule not found")
  | Some rule =>
      call (safeUpdateRule (rule_id rule)
              {| body_name := name rule;
                 body_condition := condition;
                 body_actions := actions rule |}
              (user_id (user s)) None None) ;;
      ret Success
  end.

Definition create_rule_execute (s : Session)
  (name : string) (condition : Condition) (actions : list Action) : Exec :=
  call (safeCreateRule
          {| body_name := name;
             body_condition := condition;
             body_actions := actions |}
          (user_id (user s)) None None) ;;
  ret Success.

Definition change_sender_category_execute (sender category : string) : Exec :=
  ret Success.

(** [rules.find((r) => r.group?.name === groupName)?.group?.id] *)
Definition add_to_group_groupId (s : Session) (groupName : option string)
  : option string :=
  match List.find
          (fun r => strictEq (option_map group_name (group r)) groupName)
          (rules s) with
  | Some r => option_map group_id (group r)
  | None => None
  end.

Definition add_to_group_execute (s : Session)
  (groupName : option string) (type value : string) : Exec :=
  let groupId := add_to_group_groupId s groupName in
  match groupId with
  | Some gid =>
      if negb (gid =? "") then
        match getGroupItemType type with
        | None => ret (Error "Invalid group item type")
        | Some groupItemType =>
            call (addGroupItem gid groupItemType value) ;;
            ret Success
        end
      else ret (Error "Group not found")
  | None => ret (Error "Group not found")
  end.

(** [matchedRule?.group?.items] *)
Definition matchedGroupItems (s : Session) : option (list GroupItem) :=
  match matchedRule s with
  | Some r => match group r with
              | Some g => items g
              | None => None
              end
  | None => None
  end.

(** [items?.find((item) => item.type === groupItemType && item.value === value)] *)
Definition findGroupItem (s : Session) (groupItemType : GroupItemType)
  (value : string) : option GroupItem :=
  match matchedGroupItems s with
  | Some its =>
      List.find (fun item => GroupItemType_eqb (item_type item) groupItemType
                             && (item_value item =? value)) its
  | None => None
  end.

Definition remove_from_group_execute (s : Session) (type value : string)
  : Exec :=
  match getGroupItemType type with
  | None => ret (Error "Invalid group item type")
  | Some groupItemType =>
      match findGroupItem s groupItemType value with
      | None => ret (Error "Group item not found")
      | Some groupItem =>
          call (deleteGroupItem (item_id groupItem) (user_id (user s))) ;;
          ret Success
      end
  end.

(** *** The tool registry of a session *)

(** What the decision-maker proposes: a tool name and the arguments for it,
    before any validation. *)
Inductive ToolArgs :=
| EditRuleArgs (ruleName : option string) (explanation : string)
    (condition : Condition)
| CreateRuleArgs (name : string) (condition : Condition)
    (actions : list Action)
| ChangeSenderCategoryArgs (sender category : string)
| AddToGroupArgs (groupName : option string) (type value : string)
| RemoveFromGroupArgs (type value : string)
| ReplyArgs (content : string).

(** [tool({ description, parameters, execute })]: [parameters] is the zod
    schema, read as the parser from proposed arguments to the validated
    arguments [execute] receives; [execute] is optional. *)
Record Tool := {
  description : string;
  Args : Type;
  parameters : ToolArgs -> option Args;
  execute : option (Args -> Exec)
}.

(** The schemas of [@/utils/ai/rule/create-rule-schema] are not part of the
    sources at hand and are taken as parameters. *)
Variable conditionSchema : Condition -> bool.
Variable createRuleSchema : string -> Condition -> list Action -> bool.
Variable getCreateRuleSchemaWithCategories :
  string * list string -> string -> Condition -> list Action -> bool.

(** [z.enum(["from", "subject"])] *)
Definition typeEnum (type : string) : bool :=
  (type =? "from") || (type =? "subject").

(** [z.enum([...categories, "none"])] *)
Definition categoryEnum (categories : string * list string) (c : string)
  : bool :=
  existsb (String.eqb c) ((fst categories :: snd categories) ++ ["none"])%list.

Definition getChangeCategoryTool (categories : string * list string) : Tool :=
  {| description := "Change the category of a sender";
     parameters := fun a =>
       match a with
       | ChangeSenderCategoryArgs sender category =>
           if categoryEnum categories category
           then Some (sender, category) else None
       | _ => None
       end;
     execute := Some (fun a => change_sender_category_execute (fst a) (snd a))
  |}.

Definition edit_rule (s : Session) : Tool :=
  {| description := "Fix a rule by adjusting its conditions";
     parameters := fun a =>
       match a with
       | EditRuleArgs ruleName explanation condition =>
           if conditionSchema condition
           then Some (ruleName, explanation, condition) else None
       | _ => None
       end;
     execute := Some (fun a =>
       let '(ruleName, explanation, condition) := a in
       edit_rule_execute s ruleName explanation condition)
  |}.

Definition create_rule (s : Session) : Tool :=
  {| description := "Create a new rule";
     parameters := fun a =>
       match a with
       | CreateRuleArgs name condition actions =>
           if match categories s with
              | Some cs => getCreateRuleSchemaWithCategories cs
                             name condition actions
              | None => createRuleSchema name condition actions
              end
           then Some (name, condition, actions) else None
       | _ => None
       end;
     execute := Some (fun a =>
       let '(name, condition, actions) := a in
       create_rule_execute s name condition actions)
  |}.

Definition add_to_group (s : Session) : Tool :=
  {| description := "Add a group item";
     parameters := fun a =>
       match a with
       | AddToGroupArgs groupName type value =>
           if typeEnum type then Some (groupName, type, value) else None
       | _ => None
       end;
     execute := Some (fun a =>
       let '(groupName, type, value) := a in
       add_to_group_execute s groupName type value)
  |}.

Definition remove_from_group (s : Session) : Tool :=
  {| description := "Remove a group item ";
     parameters := fun a =>
       match a with
       | RemoveFromGroupArgs type value =>
           if typeEnum type then Some (type, value) else None
       | _ => None
       end;
     execute := Some (fun a =>
       remove_from_group_execute s (fst a) (snd a))
  |}.

(** No execute function: invoking it terminates the agent. *)
Definition reply : Tool :=
  {| description := "Send an email reply to the user";
     parameters := fun a =>
       match a with
       | ReplyArgs content => Some content
       | _ => None
       end;
     execute := None
  |}.

(** [matchedRule?.group] *)
Definition matchedGroup (s : Session) : option Group :=
  match matchedRule s with
  | Some r => group r
  | None => None
  end.

(** The [tools] object literal handed to [chatCompletionTools], as the list
    of its entries in insertion order; the two spreads contribute an entry
    or nothing. *)
Definition tools (s : Session) : list (string * Tool) :=
  ([ ("edit_rule", edit_rule s);
     ("create_rule", create_rule s) ]
   ++ match categories s with
      | Some cs => [ ("change_sender_category", getChangeCategoryTool cs) ]
      | None => []
      end
   ++ [ ("add_to_group", add_to_group s) ]
   ++ (if present (matchedGroup s)
       then [ ("remove_from_group", remove_from_group s) ]
       else [])
   ++ [ ("reply", reply) ])%list.

Definition maxSteps : nat := 5.

(** [tools[name]] *)
Definition lookupTool (registry : list (string * Tool)) (name : string)
  : option Tool :=
  option_map snd (List.find (fun entry => fst entry =? name) registry).

Definition toolNames (registry : list (string * Tool)) : list string :=
  List.map fst registry.

(** *** The prompt *)

Definition system : string :=
  "You are an email management assistant that helps users manage their email rules." ++ nl ++
  "You can fix rules by adjusting their conditions, including:" ++ nl ++
  "- AI instructions" ++ nl ++
  "- Static conditions (from, to, subject, body)" ++ nl ++
  "- Static group conditions (from, subject)" ++ nl ++
  "- Category assignments" ++ nl ++
  nl ++
  "Prefer to fix rules by editing them directly, rather than creating new ones." ++ nl ++
  nl ++
  "When fixing a rule, explain what changes you're making and why. Always confirm your actions with clear, concise responses." ++ nl ++
  nl ++
  "Rule matching logic:" ++ nl ++
  "- All static conditions (from, to, subject, body) use AND logic - meaning all conditions must match" ++ nl ++
  "- Top level conditions (static, group, category, AI instructions) can use either AND or OR logic, controlled by the conditionalOperator setting" ++ nl ++
  nl ++
  "Group conditions:" ++ nl ++
  "- When a group exists, prefer to add/remove group items over changing AI instructions" ++ nl ++
  "- Only add subject patterns to groups if they are recurring across multiple emails (e.g., "
    ++ dq ++ "Monthly Statement" ++ dq ++ ", " ++ dq ++ "Order Confirmation" ++ dq ++ ")" ++ nl ++
  nl ++
  "When fixing a rule, prefer minimal changes that solve the problem:" ++ nl ++
  "- Only add AI instructions if simpler conditions won't suffice" ++ nl ++
  "- Make the smallest change that will fix the issue".

Definition prompt (s : Session) : string :=
  "<matched_rule>" ++ nl ++
  match matchedRule s with
  | Some r => ruleToXML r
  | None => "No rule matched"
  end ++ nl ++
  "</matched_rule>" ++ nl ++
  nl ++
  match matchedRule s with
  | None => "<user_rules>" ++ nl ++
            String.concat nl (List.map ruleToXML (rules s)) ++ nl ++
            "</user_rules>"
  | Some _ => ""
  end ++ nl ++
  nl ++
  "<user_request>" ++ nl ++
  userRequestEmail s ++ nl ++
  "</user_request>" ++ nl ++
  nl ++
  match about (user s) with
  | Some a => if negb (a =? "")
              then "<user_about>" ++ nl ++ "  " ++ a ++ nl ++ "</user_about>"
              else ""
  | None => ""
  end ++ nl ++
  nl ++
  "<original_email>" ++ nl ++
  originalEmail s ++ nl ++
  "</original_email>" ++ nl ++
  nl ++
  match categories s with
  | Some _ => "<sender_category>" ++ nl ++
              match senderCategory s with
              | Some c => c
              | None => "null"
              end ++ nl ++
              "</sender_category>"
  | None => ""
  end.

(** *** The repair loop *)

Record ToolCall := {
  toolName : string;
  toolArgs : ToolArgs
}.

(** What a step of the loop did with the chosen call. *)
Inductive Outcome :=
| ToolResult (payload : Payload)
| ValidationError
| Terminal.

Record Step := {
  stepCall : ToolCall;
  outcome : Outcome
}.

Record SessionResult := {
  terminalReply : option string;
  steps : list Step
}.

(** [result.steps.flatMap((step) => step.toolCalls)] *)
Definition toolCallLog (r : SessionResult) : list ToolCall :=
  List.map stepCall (steps r).

Definition isToolResult (st : Step) : bool :=
  match outcome st with
  | ToolResult _ => true
  | _ => false
  end.

(** The steps in which a tool's [execute] ran. *)
Definition executed (l : list Step) : list Step := List.filter isToolResult l.

Definition replyContent (a : ToolArgs) : option string :=
  match a with
  | ReplyArgs content => Some content
  | _ => None
  end.

(** The decision-maker: from the system instructions, the prompt, the tool
    schemas (name and description) and the steps so far to the next call. *)
Definition DecisionMaker : Type :=
  string -> string -> list (string * string) -> list Step -> ToolCall.

(** Modelled from the spec: the loop of [chatCompletionTools]
    ([@/utils/llms], not part of the sources at hand), after sections 4.3,
    6 and 7 of the specification.  One exchange with the decision-maker per
    step, against a fixed budget of steps.  A call that names no exposed
    tool or violates the tool's schema is rejected before execute and
    recorded as a validation error; a tool without an execute step ends the
    session, its argument being the reply; any other tool is executed, its
    payload is appended to the conversation and the loop deliberates again.
    When the budget is exhausted the session ends without a terminal reply
    and the steps taken are still returned. *)
Fixpoint deliberate (choose : list Step -> ToolCall)
  (registry : list (string * Tool)) (budget : nat) (history : list Step)
  : M StoreCall SessionResult :=
  match budget with
  | 0 => ret {| terminalReply := None; steps := history |}
  | S budget' =>
      let c := choose history in
      let rejected :=
        deliberate choose registry budget'
          (history ++ [ {| stepCall := c; outcome := ValidationError |} ])%list in
      match lookupTool registry (toolName c) with
      | None => rejected
      | Some t =>
          match parameters t (toolArgs c) with
          | None => rejected
          | Some a =>
              match execute t with
              | None =>
                  ret {| terminalReply := replyContent (toolArgs c);
                         steps := (history ++
                                   [ {| stepCall := c; outcome := Terminal |} ])%list |}
              | Some run =>
                  payload <- run a ;;
                  deliberate choose registry budget'
                    (history ++
                     [ {| stepCall := c; outcome := ToolResult payload |} ])%list
              end
          end
      end
  end.

(** Modelled from the spec: the entry point of [chatCompletionTools]; the
    session starts with an empty conversation. *)
Definition chatCompletionTools (dm : DecisionMaker) (system prompt : string)
  (registry : list (string * Tool)) (maxSteps : nat)
  : M StoreCall SessionResult :=
  deliberate
    (dm system prompt (List.map (fun e => (fst e, description (snd e))) registry))
    registry maxSteps [].

Definition processUserRequest (s : Session) (dm : DecisionMaker)
  : M StoreCall SessionResult :=
  chatCompletionTools dm system (prompt s) (tools s) maxSteps.

End Agent.

(** ** Vocabulary of the specification *)

(** The text of a sequence of pieces, one after the other. *)
Definition joinAll (l : list string) : string := List.fold_right append "" l.

Definition isLayout (c : ascii) : bool :=
  (nat_of_ascii c =? 32)%nat || (nat_of_ascii c =? 10)%nat.

(** A text without its spaces and line breaks: two texts with the same
    [stripLayout] differ by layout only. *)
Fixpoint stripLayout (s : string) : string :=
  match s with
  | EmptyString => EmptyString
  | String c rest => if isLayout c then stripLayout rest
                     else String c (stripLayout rest)
  end.

Section SerializerVocabulary.
Context {Action : Type}.

(** The static condition fields of a rule, in the order of the rule form. *)
Definition staticFields (rule : Rule Action) : list (string * option string) :=
  [ ("from", from rule); ("to", to rule);
    ("subject", subject rule); ("body", body rule) ].

(** A field is set when it holds a non-empty pattern. *)
Definition isSet (f : string * option string) : bool := truthy (snd f).

Definition setFields (rule : Rule Action) : list (string * option string) :=
  List.filter isSet (staticFields rule).

(** The element a field is presented as. *)
Definition element (f : string * option string) : string :=
  match snd f with
  | Some v => "<" ++ fst f ++ ">" ++ v ++ "</" ++ fst f ++ ">"
  | None => ""
  end.

(** The same rule with none of from/to/subject/body. *)
Definition withoutStatic (rule : Rule Action) : Rule Action :=
  {| rule_id := rule_id rule;
     name := name rule;
     instructions := instructions rule;
     from := None;
     to := None;
     subject := None;
     body := None;
     conditionalOperator := conditionalOperator rule;
     actions := actions rule;
     group := group rule;
     categoryFilters := categoryFilters rule;
     categoryFilterType := categoryFilterType rule |}.

Definition blankToAbsent (v : option string) : option string :=
  match v with
  | Some s => if s =? "" then None else Some s
  | None => None
  end.

(** The same rule with every empty-string static field made absent. *)
Definition withBlanksAbsent (rule : Rule Action) : Rule Action :=
  {| rule_id := rule_id rule;
     name := name rule;
     instructions := instructions rule;
     from := blankToAbsent (from rule);
     to := blankToAbsent (to rule);
     subject := blankToAbsent (subject rule);
     body := blankToAbsent (body rule);
     conditionalOperator := conditionalOperator rule;
     actions := actions rule;
     group := group rule;
     categoryFilters := categoryFilters rule;
     categoryFilterType := categoryFilterType rule |}.

(** A static field that is absent or the empty string. *)
Definition blank (v : option string) : Prop := v = None \/ v = Some "".

End SerializerVocabulary.

(** A rule whose group is loaded and holds no item
    ([group: { name: "Receipts", items: [] }]). *)
Definition emptyGroupRule : Rule unit :=
  {| rule_id := "rule-1";
     name := "Archive";
     instructions := None;
     from := None;
     to := None;
     subject := None;
     body := None;
     conditionalOperator := AND;
     actions := [];
     group := Some {| group_id := "group-1";
                      group_name := "Receipts";
                      items := Some [] |};
     categoryFilters := None;
     categoryFilterType := None |}.

(** The newsletter rule of the end-to-end scenario, with a subject added. *)
Definition newsletterRule : Rule unit :=
  {| rule_id := "rule-2";
     name := "Newsletter";
     instructions := None;
     from := Some "news@";
     to := Some "";
     subject := Some "Weekly Digest";
     body := None;
     conditionalOperator := AND;
     actions := [tt];
     group := None;
     categoryFilters := None;
     categoryFilterType := None |}.

Section AgentVocabulary.
Context {Condition Action : Type}.

(** [r] is the first rule of [l] named [n]. *)
Definition firstNamed (n : string) (l : list (Rule Action)) (r : Rule Action)
  : Prop :=
  exists before after,
    l = (before ++ r :: after)%list /\ name r = n
    /\ forall x, In x before -> name x <> n.

Definition noneNamed (n : string) (l : list (Rule Action)) : Prop :=
  forall x, In x l -> name x <> n.

(** The request to replace the condition of [r] and nothing else. *)
Definition conditionUpdate (s : @Session Action) (r : Rule Action)
  (condition : Condition) : @StoreCall Condition Action :=
  safeUpdateRule (rule_id r)
    {| body_name := name r;
       body_condition := condition;
       body_actions := actions r |}
    (user_id (user s)) None None.

(** The target of edit_rule in the words of the specification: the rule
    named [ruleName] when a name is given, the matched rule when it is
    unset. *)
Definition claimedTarget (s : @Session Action) (ruleName : option string)
  : option (Rule Action) :=
  match ruleName with
  | Some n => List.find (fun r => name r =? n) (rules s)
  | None => matchedRule s
  end.

(** What the specification says of an edit_rule invocation. *)
Definition editRuleAsClaimed (s : @Session Action) (ruleName : option string)
  (explanation : string) (condition : Condition)
  (tr : Trace (@StoreCall Condition Action)) : Prop :=
  match claimedTarget s ruleName with
  | Some r =>
      edit_rule_execute s ruleName explanation condition tr
      = (Success, (tr ++ [conditionUpdate s r condition])%list)
  | None =>
      edit_rule_execute s ruleName explanation condition tr
      = (Error "Rule not found", tr)
  end.

(** The item has the requested type and value. *)
Definition matchesRequest (type value : string) (item : GroupItem) : Prop :=
  getGroupItemType type = Some (item_type item) /\ item_value item = value.

(** A computation that makes at most one store call. *)
Definition atMostOneCall {A : Type}
  (m : M (@StoreCall Condition Action) A) : Prop :=
  forall tr, exists a calls,
    m tr = (a, (tr ++ calls)%list) /\ List.length calls <= 1.

End AgentVocabulary.

(** A rule whose static fields are empty strings or absent. *)
Definition blankStaticRule : Rule unit :=
  {| rule_id := "rule-4";
     name := "Blank";
     instructions := Some "Match receipts";
     from := Some "";
     to := None;
     subject := Some "";
     body := Some "";
     conditionalOperator := OR;
     actions := [];
     group := None;
     categoryFilters := None;
     categoryFilterType := None |}.

(** *** The sessions of the end-to-end scenarios *)

Definition receiptsGroup : Group :=
  {| group_id := "group-2";
     group_name := "Receipts";
     items := Some [ {| item_id := "item-1";
                        item_type := SUBJECT;
                        item_value := "Invoice" |} ] |}.

Definition receiptsRule : Rule unit :=
  {| rule_id := "rule-3";
     name := "Receipts";
     instructions := None;
     from := None;
     to := None;
     subject := None;
     body := None;
     conditionalOperator := OR;
     actions := [tt; tt];
     group := Some receiptsGroup;
     categoryFilters := None;
     categoryFilterType := None |}.

Definition scenarioUser : User :=
  {| user_id := "user-1"; email := Some "me@example.com"; about := None |}.

Definition scenarioSession (matched : option (Rule unit)) : @Session unit :=
  {| user := scenarioUser;
     rules := [newsletterRule; receiptsRule];
     userRequestEmail := "this should also match subject 'Weekly Digest'";
     originalEmail := "Weekly Digest";
     matchedRule := matched;
     categories := None;
     senderCategory := None |}.

(** Schemas that accept every condition and every rule. *)
Definition anyCondition (c : string) : bool := true.
Definition anyRule (n c : string) (a : list unit) : bool := true.
Definition anyRuleWithCategories (cs : string * list string)
  (n c : string) (a : list unit) : bool := true.

(** A decision-maker that asks for the same edit at every step. *)
Definition alwaysEdit : @DecisionMaker string unit :=
  fun _ _ _ _ =>
    {| toolName := "edit_rule";
       toolArgs := EditRuleArgs (Some "Newsletter") "add the subject"
                     "subject=Weekly Digest" |}.

(** A decision-maker that edits once and then replies. *)
Definition editThenReply : @DecisionMaker string unit :=
  fun _ _ _ history =>
    match history with
    | [] => {| toolName := "edit_rule";
               toolArgs := EditRuleArgs (Some "Newsletter") "add the subject"
                             "subject=Weekly Digest" |}
    | _ => {| toolName := "reply"; toolArgs := ReplyArgs "Done." |}
    end.

(** *** Further vocabulary: groups, items, store calls, sessions *)

Section ToolVocabulary.
Context {Condition Action : Type}.

(** [r] is the first rule of [l] that has a group named [n], and [g] is
    that group. *)
Definition firstGrouped (n : string) (l : list (Rule Action))
  (r : Rule Action) (g : Group) : Prop :=
  exists before after,
    l = (before ++ r :: after)%list /\ group r = Some g /\ group_name g = n
    /\ forall x g', In x before -> group x = Some g' -> group_name g' <> n.

Definition noneGrouped (n : string) (l : list (Rule Action)) : Prop :=
  forall x g', In x l -> group x = Some g' -> group_name g' <> n.

(** [item] is the first item of [its] with type [t] and value [value]. *)
Definition firstMatching (t : GroupItemType) (value : string)
  (its : list GroupItem) (item : GroupItem) : Prop :=
  exists before after,
    its = (before ++ item :: after)%list
    /\ item_type item = t /\ item_value item = value
    /\ forall x, In x before -> ~ (item_type x = t /\ item_value x = value).

(** The store call that belongs to the tool named [n]. *)
Definition storeCallOf (n : string) (c : @StoreCall Condition Action) : Prop :=
  match c with
  | safeUpdateRule _ _ _ _ _ => n = "edit_rule"
  | safeCreateRule _ _ _ _ => n = "create_rule"
  | addGroupItem _ _ _ => n = "add_to_group"
  | deleteGroupItem _ _ => n = "remove_from_group"
  end.

(** The error reasons the tools return. *)
Definition toolErrors : list string :=
  [ "Rule not found"; "Group not found";
    "Invalid group item type"; "Group item not found" ].

(** What a tool named [n] may leave behind when run on the trace [tr]:
    success with its one store call appended (none for the category
    change), or a known error with the trace as it was. *)
Definition toolOutcome (n : string) (tr : Trace (@StoreCall Condition Action))
  (result : Payload * Trace (@StoreCall Condition Action)) : Prop :=
  (fst result = Success
   /\ ((n = "change_sender_category" /\ snd result = tr)
       \/ exists c, snd result = (tr ++ [c])%list /\ storeCallOf n c))
  \/ (exists reason,
        fst result = Error reason /\ In reason toolErrors
        /\ snd result = tr).

(** The same session with another rule set, sender category or profile. *)
Definition withRules (s : @Session Action) (rs : list (Rule Action))
  : @Session Action :=
  {| user := user s;
     rules := rs;
     userRequestEmail := userRequestEmail s;
     originalEmail := originalEmail s;
     matchedRule := matchedRule s;
     categories := categories s;
     senderCategory := senderCategory s |}.

Definition withSenderCategory (s : @Session Action) (c : option string)
  : @Session Action :=
  {| user := user s;
     rules := rules s;
     userRequestEmail := userRequestEmail s;
     originalEmail := originalEmail s;
     matchedRule := matchedRule s;
     categories := categories s;
     senderCategory := c |}.

Definition withAbout (s : @Session Action) (a : option string)
  : @Session Action :=
  {| user := {| user_id := user_id (user s);
                email := email (user s);
                about := a |};
     rules := rules s;
     userRequestEmail := userRequestEmail s;
     originalEmail := originalEmail s;
     matchedRule := matchedRule s;
     categories := categories s;
     senderCategory := senderCategory s |}.

(** A rule stripped of what identifies it in the store: its id, its
    actions, the id of its group and the ids of the group's items. *)
Definition anonymousItem (item : GroupItem) : GroupItem :=
  {| item_id := "";
     item_type := item_type item;
     item_value := item_value item |}.

Definition anonymousGroup (g : Group) : Group :=
  {| group_id := "";
     group_name := group_name g;
     items := option_map (List.map anonymousItem) (items g) |}.

Definition anonymous (rule : Rule Action) : Rule unit :=
  {| rule_id := "";
     name := name rule;
     instructions := instructions rule;
     from := from rule;
     to := to rule;
     subject := subject rule;
     body := body rule;
     conditionalOperator := conditionalOperator rule;
     actions := [];
     group := option_map anonymousGroup (group rule);
     categoryFilters := categoryFilters rule;
     categoryFilterType := categoryFilterType rule |}.

(** The same rule with other instructions or category filters. *)
Definition withInstructions (rule : Rule Action) (i : option string)
  : Rule Action :=
  {| rule_id := rule_id rule;
     name := name rule;
     instructions := i;
     from := from rule;
     to := to rule;
     subject := subject rule;
     body := body rule;
     conditionalOperator := conditionalOperator rule;
     actions := actions rule;
     group := group rule;
     categoryFilters := categoryFilters rule;
     categoryFilterType := categoryFilterType rule |}.

Definition withCategoryFilters (rule : Rule Action)
  (cs : option (list Category)) (ft : option CategoryFilterType)
  : Rule Action :=
  {| rule_id := rule_id rule;
     name := name rule;
     instructions := instructions rule;
     from := from rule;
     to := to rule;
     subject := subject rule;
     body := body rule;
     conditionalOperator := conditionalOperator rule;
     actions := actions rule;
     group := group rule;
     categoryFilters := cs;
     categoryFilterType := ft |}.

End ToolVocabulary.

(** A rule filtered by two categories, and a session with categories. *)
Definition filteredRule : Rule unit :=
  {| rule_id := "rule-5";
     name := "Promotions";
     instructions := Some "Marketing mail";
     from := None;
     to := None;
     subject := None;
     body := None;
     conditionalOperator := AND;
     actions := [tt];
     group := None;
     categoryFilters := Some [ {| category_name := "Marketing" |};
                               {| category_name := "Newsletter" |} ];
     categoryFilterType := Some EXCLUDE |}.

Definition categorySession : @Session unit :=
  {| user := {| user_id := "user-1"; email := None; about := Some "" |};
     rules := [filteredRule; receiptsRule; newsletterRule];
     userRequestEmail := "this sender is not marketing";
     originalEmail := "Your receipt";
     matchedRule := None;
     categories := Some ("Marketing", ["Newsletter"]);
     senderCategory := None |}.

(** A group with the same item twice. *)
Definition duplicateItems : list GroupItem :=
  [ {| item_id := "item-1"; item_type := FROM; item_value := "Invoice" |};
    {| item_id := "item-2"; item_type := SUBJECT; item_value := "Invoice" |};
    {| item_id := "item-3"; item_type := SUBJECT; item_value := "Invoice" |} ].

Definition duplicateSession : @Session unit :=
  scenarioSession
    (Some {| rule_id := "rule-6";
             name := "Invoices";
             instructions := None;
             from := None;
             to := None;
             subject := None;
             body := None;
             conditionalOperator := AND;
             actions := [];
             group := Some {| group_id := "group-3";
                              group_name := "Invoices";
                              items := Some duplicateItems |};
             categoryFilters := None;
             categoryFilterType := None |}).

(** ** Properties of the serializer *)

Lemma append_assoc (a b c : string) : (a ++ b) ++ c = a ++ b ++ c.
Proof.
  induction a as [|x a IH]; simpl; [reflexivity | now rewrite IH].
Qed.

Lemma append_empty_r (a : string) : a ++ "" = a.
Proof.
  induction a as [|x a IH]; simpl; [reflexivity | now rewrite IH].
Qed.

Lemma prefix_append (pat rest : string) : prefix pat (pat ++ rest) = true.
Proof.
  induction pat as [|c pat IH]; simpl.
  - now destruct rest.
  - destruct (ascii_dec c c) as [_|ne]; [exact IH | now elim ne].
Qed.

Lemma includes_here (pat rest : string) : includes pat (pat ++ rest) = true.
Proof.
  pose proof (prefix_append pat rest) as P.
  destruct (pat ++ rest); cbn [includes]; rewrite P; reflexivity.
Qed.

Lemma includes_later (pat a s : string) :
  includes pat s = true -> includes pat (a ++ s) = true.
Proof.
  intros H. induction a as [|c a IH]; cbn [includes append]; [exact H |].
  rewrite IH. now destruct (prefix pat (String c (a ++ s))).
Qed.

Lemma includes_intro (pat a b s : string) :
  s = a ++ pat ++ b -> includes pat s = true.
Proof.
  intros ->. apply includes_later, includes_here.
Qed.

Lemma stripLayout_append (a b : string) :
  stripLayout (a ++ b) = stripLayout a ++ stripLayout b.
Proof.
  induction a as [|c a IH]; simpl; [reflexivity |].
  destruct (isLayout c); simpl; now rewrite IH.
Qed.

Section SerializerProperties.
Context {Action : Type}.
Implicit Types (rule : Rule Action) (f : string * option string).

Lemma element_of_set_field f :
  isSet f = true -> optElem (fst f) (snd f) = element f.
Proof.
  unfold isSet, truthy, optElem, element.
  destruct (snd f) as [v|]; [| discriminate].
  now intros ->.
Qed.

Lemma optElem_of_unset_field f :
  isSet f = false -> optElem (fst f) (snd f) = "".
Proof.
  unfold isSet, truthy, optElem.
  destruct (snd f) as [v|]; [| reflexivity].
  now intros ->.
Qed.

Lemma hasStaticConditions_iff_some_set rule :
  hasStaticConditions rule = negb (Nat.eqb (List.length (setFields rule)) 0).
Proof.
  unfold hasStaticConditions, setFields, staticFields, isSet; simpl.
  destruct (truthy (from rule)), (truthy (to rule)),
    (truthy (subject rule)), (truthy (body rule)); reflexivity.
Qed.

Lemma serialization_of_withoutStatic rule :
  ruleToXML (withoutStatic rule) = ruleHead rule ++ ruleTail rule.
Proof. reflexivity. Qed.

Lemma static_field_in_block rule f :
  In f (staticFields rule) ->
  includes (optElem (fst f) (snd f)) (staticInner rule) = true.
Proof.
  unfold staticFields, staticInner.
  intros [<- | [<- | [<- | [<- | []]]]]; cbn [fst snd].
  - do 2 apply includes_later. apply includes_here.
  - do 5 apply includes_later. apply includes_here.
  - do 8 apply includes_later. apply includes_here.
  - do 11 apply includes_later. apply includes_here.
Qed.

Lemma stripLayout_set_elements (fs : list (string * option string)) :
  stripLayout (joinAll (List.map element (List.filter isSet fs)))
  = joinAll (List.map (fun f => stripLayout (optElem (fst f) (snd f))) fs).
Proof.
  induction fs as [|f fs IH]; [reflexivity |].
  cbn [List.filter List.map joinAll List.fold_right].
  destruct (isSet f) eqn:E.
  - cbn [List.map joinAll List.fold_right].
    rewrite stripLayout_append, (element_of_set_field _ E).
    f_equal. exact IH.
  - rewrite (optElem_of_unset_field _ E). exact IH.
Qed.

Lemma stripLayout_staticInner rule :
  stripLayout (staticInner rule)
  = stripLayout (joinAll (List.map element (setFields rule))).
Proof.
  unfold setFields. rewrite stripLayout_set_elements.
  unfold staticInner, staticFields.
  repeat rewrite stripLayout_append.
  change (stripLayout nl) with "".
  change (stripLayout "      ") with "".
  change (stripLayout "    ") with "".
  cbn [List.map joinAll List.fold_right fst snd append].
  now rewrite !append_empty_r.
Qed.

Lemma operator_in_head rule :
  includes ("<conditional_operator>"
            ++ LogicalOperator_str (conditionalOperator rule)
            ++ "</conditional_operator>") (ruleHead rule) = true.
Proof.
  unfold ruleHead.
  do 8 apply includes_later.
  change ("    <conditional_operator>") with ("    " ++ "<conditional_operator>").
  rewrite append_assoc. apply includes_later.
  apply includes_intro with (a := "")
    (b := nl ++ "    " ++ optElem "ai_instructions" (instructions rule)
          ++ nl ++ "    ").
  rewrite !append_assoc. reflexivity.
Qed.

Lemma optElem_blankToAbsent (tag : string) (v : option string) :
  optElem tag (blankToAbsent v) = optElem tag v.
Proof.
  destruct v as [s|]; [| reflexivity].
  unfold blankToAbsent, optElem. now destruct (s =? "") eqn:E; simpl; rewrite ?E.
Qed.

Lemma truthy_blankToAbsent (v : option string) :
  truthy (blankToAbsent v) = truthy v.
Proof.
  destruct v as [s|]; [| reflexivity].
  unfold blankToAbsent, truthy. now destruct (s =? "") eqn:E; simpl; rewrite ?E.
Qed.

Lemma truthy_blank (v : option string) : blank v -> truthy v = false.
Proof. now intros [-> | ->]. Qed.

Lemma groupItems_absent (g : Group) :
  items g = None -> groupItemsXML g = "No group items".
Proof. unfold groupItemsXML. now intros ->. Qed.

Lemma groupItems_empty (g : Group) :
  items g = Some [] -> groupItemsXML g = "".
Proof. unfold groupItemsXML. now intros ->. Qed.

(** C2 (the code departs from the claim): for a rule whose group is loaded
    with zero items, the serializer emits the group's name but leaves the
    item list empty; the text "No group items" appears nowhere in the
    output.  The marker is written only when the item list is absent. *)
Theorem C2_empty_group_has_no_marker :
  includes "<group>Receipts</group>" (ruleToXML emptyGroupRule) = true
  /\ includes "No group items" (ruleToXML emptyGroupRule) = false
  /\ groupConditionXML emptyGroupRule
     = "<group_condition>" ++ nl ++
       "      <group>Receipts</group>" ++ nl ++
       "      <group_items>" ++ nl ++
       "        " ++ nl ++
       "      </group_items>" ++ nl ++
       "    </group_condition>".
Proof. repeat split; vm_compute; reflexivity. Qed.

(** C3: a rule with at least two of from/to/subject/body set is serialized
    as the serialization of the same rule without static conditions, with
    one static-conditions block inserted after the conditional operator;
    every set field is presented inside that block and, layout aside, the
    block holds the set fields' elements and nothing else.  When no field is
    set there is no block: the output is that of the rule without static
    conditions. *)
Theorem C3_static_conditions_in_one_block rule :
  (2 <= List.length (setFields rule) ->
   exists pre inner post,
     ruleToXML rule
       = pre ++ "<static_conditions>" ++ inner ++ "</static_conditions>" ++ post
     /\ ruleToXML (withoutStatic rule) = pre ++ post
     /\ includes ("<conditional_operator>"
                  ++ LogicalOperator_str (conditionalOperator rule)
                  ++ "</conditional_operator>") pre = true
     /\ (forall f, In f (setFields rule) -> includes (element f) inner = true)
     /\ stripLayout inner
        = stripLayout (joinAll (List.map element (setFields rule))))
  /\ (setFields rule = [] ->
      staticConditionsXML rule = ""
      /\ ruleToXML rule = ruleToXML (withoutStatic rule)).
Proof.
  split.
  - intros Hset.
    exists (ruleHead rule), (staticInner rule), (ruleTail rule).
    assert (hasStaticConditions rule = true) as Hs.
    { rewrite hasStaticConditions_iff_some_set.
      destruct (List.length (setFields rule)); [lia | reflexivity]. }
    split; [| split; [| split; [| split]]].
    + unfold ruleToXML, staticConditionsXML. rewrite Hs.
      now rewrite !append_assoc.
    + apply serialization_of_withoutStatic.
    + apply operator_in_head.
    + intros f Hf. apply filter_In in Hf as [Hin Hf].
      rewrite <- (element_of_set_field _ Hf).
      now apply static_field_in_block.
    + apply stripLayout_staticInner.
  - intros Hnone.
    assert (staticConditionsXML rule = "") as Hb.
    { unfold staticConditionsXML.
      now rewrite hasStaticConditions_iff_some_set, Hnone. }
    split; [exact Hb |].
    rewrite serialization_of_withoutStatic.
    unfold ruleToXML. now rewrite Hb.
Qed.

(** C9: an empty-string static field is serialized exactly like an absent
    one.  Making every empty-string field absent leaves the output
    unchanged, an empty-string field yields no element, and a rule whose
    static fields are all absent or empty gets no static-conditions block. *)
Theorem C9_empty_string_is_absent rule :
  ruleToXML rule = ruleToXML (withBlanksAbsent rule)
  /\ (forall tag, optElem tag (Some "") = "")
  /\ (blank (from rule) -> blank (to rule) ->
      blank (subject rule) -> blank (body rule) ->
      staticConditionsXML rule = ""
      /\ ruleToXML rule = ruleToXML (withoutStatic rule)).
Proof.
  split; [| split].
  - unfold ruleToXML, staticConditionsXML, staticInner, hasStaticConditions.
    cbn [withBlanksAbsent from to subject body].
    now rewrite !optElem_blankToAbsent, !truthy_blankToAbsent.
  - reflexivity.
  - intros Hf Ht Hs Hb.
    assert (staticConditionsXML rule = "") as Hnone.
    { unfold staticConditionsXML, hasStaticConditions.
      now rewrite (truthy_blank Hf), (truthy_blank Ht),
        (truthy_blank Hs), (truthy_blank Hb). }
    split; [exact Hnone |].
    rewrite serialization_of_withoutStatic.
    unfold ruleToXML. now rewrite Hnone.
Qed.

End SerializerProperties.

(** ** Properties of the tools *)

Section ToolProperties.
Context {Condition Action : Type}.
Implicit Types (s : @Session Action) (condition : Condition)
  (tr : Trace (@StoreCall Condition Action)).

Lemma find_firstNamed (n : string) (l : list (Rule Action)) (r : Rule Action) :
  firstNamed n l r -> List.find (fun x => name x =? n) l = Some r.
Proof.
  intros (before & after & -> & Hn & Hbefore).
  induction before as [|x before IH]; simpl.
  - now rewrite (proj2 (String.eqb_eq _ _) Hn).
  - rewrite (proj2 (String.eqb_neq _ _) (Hbefore x (or_introl eq_refl))).
    apply IH. intros y Hy. apply Hbefore. now right.
Qed.

Lemma find_noneNamed (n : string) (l : list (Rule Action)) :
  noneNamed n l -> List.find (fun x => name x =? n) l = None.
Proof.
  intros Hnone. induction l as [|x l IH]; simpl; [reflexivity |].
  rewrite (proj2 (String.eqb_neq _ _) (Hnone x (or_introl eq_refl))).
  apply IH. intros y Hy. apply Hnone. now right.
Qed.

Lemma edit_rule_execute_resolved s ruleName explanation condition tr
  (r : Rule Action) :
  edit_rule_target s ruleName = Some r ->
  edit_rule_execute s ruleName explanation condition tr
  = (Success, (tr ++ [conditionUpdate s r condition])%list).
Proof. unfold edit_rule_execute. now intros ->. Qed.

Lemma edit_rule_execute_unresolved s ruleName explanation condition tr :
  edit_rule_target s ruleName = None ->
  edit_rule_execute s ruleName explanation condition tr
  = (Error "Rule not found", tr).
Proof. unfold edit_rule_execute. now intros ->. Qed.

(** C1 (as amended): a non-empty [ruleName] targets the first rule of the
    session's rule set with exactly that name; an unset or empty [ruleName]
    targets the session's matched rule; when the target does not resolve,
    edit_rule returns [{ error: "Rule not found" }] and makes no store
    call, and when it resolves the only store call is the update of the
    target. *)
Theorem C1_edit_rule_resolution s ruleName explanation condition tr :
  (forall n, ruleName = Some n -> n <> "" ->
     (forall r, firstNamed n (rules s) r ->
        edit_rule_execute s ruleName explanation condition tr
        = (Success, (tr ++ [conditionUpdate s r condition])%list))
     /\ (noneNamed n (rules s) ->
         edit_rule_execute s ruleName explanation condition tr
         = (Error "Rule not found", tr)))
  /\ (ruleName = None \/ ruleName = Some "" ->
      (forall r, matchedRule s = Some r ->
         edit_rule_execute s ruleName explanation condition tr
         = (Success, (tr ++ [conditionUpdate s r condition])%list))
      /\ (matchedRule s = None ->
          edit_rule_execute s ruleName explanation condition tr
          = (Error "Rule not found", tr))).
Proof.
  split.
  - intros n -> Hn.
    assert (negb (n =? "") = true) as Hne
      by now rewrite (proj2 (String.eqb_neq _ _) Hn).
    split.
    + intros r Hr. apply edit_rule_execute_resolved.
      unfold edit_rule_target. rewrite Hne. now apply find_firstNamed.
    + intros Hnone. apply edit_rule_execute_unresolved.
      unfold edit_rule_target. rewrite Hne. now apply find_noneNamed.
  - intros Hunset.
    assert (edit_rule_target s ruleName = matchedRule s) as Ht
      by now destruct Hunset as [-> | ->].
    split.
    + intros r Hr. apply edit_rule_execute_resolved. now rewrite Ht.
    + intros Hr. apply edit_rule_execute_unresolved. now rewrite Ht.
Qed.

(** C4: a successful edit_rule makes exactly one store call, the update of
    the resolved rule, carrying the rule's own name and actions with the new
    condition, and [null] for the group and category linkage. *)
Theorem C4_edit_rule_carries_name_and_actions
  s ruleName explanation condition tr tr' :
  edit_rule_execute s ruleName explanation condition tr = (Success, tr') ->
  exists rule,
    edit_rule_target s ruleName = Some rule
    /\ tr' = (tr ++ [safeUpdateRule (rule_id rule)
                       {| body_name := name rule;
                          body_condition := condition;
                          body_actions := actions rule |}
                       (user_id (user s)) None None])%list.
Proof.
  unfold edit_rule_execute.
  destruct (edit_rule_target s ruleName) as [rule|]; [| discriminate].
  intros H. exists rule. split; [reflexivity |].
  now injection H as <-.
Qed.

Lemma typeEnum_getGroupItemType (type : string) :
  typeEnum type = true -> exists t, getGroupItemType type = Some t.
Proof.
  unfold typeEnum, getGroupItemType.
  destruct (type =? "from"); [now exists FROM |].
  destruct (type =? "subject"); [now exists SUBJECT | discriminate].
Qed.

Lemma GroupItemType_eqb_eq (a b : GroupItemType) :
  GroupItemType_eqb a b = true <-> a = b.
Proof. destruct a, b; simpl; split; congruence. Qed.

Lemma findGroupItem_some s (t : GroupItemType) (value : string)
  (item : GroupItem) :
  findGroupItem s t value = Some item ->
  exists its, matchedGroupItems s = Some its /\ In item its
              /\ item_type item = t /\ item_value item = value.
Proof.
  unfold findGroupItem.
  destruct (matchedGroupItems s) as [its|]; [| discriminate].
  intros H. apply find_some in H as [Hin Hm].
  apply andb_true_iff in Hm as [Ht Hv].
  exists its. repeat split; try assumption.
  - now apply GroupItemType_eqb_eq.
  - now apply String.eqb_eq.
Qed.

Lemma findGroupItem_none s (t : GroupItemType) (value : string)
  (its : list GroupItem) (item : GroupItem) :
  findGroupItem s t value = None ->
  matchedGroupItems s = Some its -> In item its ->
  ~ (item_type item = t /\ item_value item = value).
Proof.
  unfold findGroupItem. intros H Hits Hin [Ht Hv]. rewrite Hits in H.
  pose proof (find_none _ _ H _ Hin) as Hm. cbv beta in Hm.
  rewrite (proj2 (GroupItemType_eqb_eq _ _) Ht) in Hm.
  rewrite (proj2 (String.eqb_eq _ _) Hv) in Hm. discriminate.
Qed.

(** C5: remove_from_group deletes only an item of the matched rule's
    group whose type and value are exactly the requested ones; when the
    group has such an item the tool succeeds with that single delete, and
    when it has none the tool returns [{ error: "Group item not found" }]
    and makes no store call. *)
Theorem C5_remove_from_group_exact_match s (type value : string) tr :
  typeEnum type = true ->
  exists payload calls,
    remove_from_group_execute s type value tr = (payload, (tr ++ calls)%list)
    /\ (forall c, In c calls ->
          exists its item,
            matchedGroupItems s = Some its /\ In item its
            /\ matchesRequest type value item
            /\ c = deleteGroupItem (item_id item) (user_id (user s)))
    /\ ((exists its item, matchedGroupItems s = Some its /\ In item its
                          /\ matchesRequest type value item) ->
        payload = Success /\ List.length calls = 1)
    /\ ((forall its item, matchedGroupItems s = Some its -> In item its ->
                          ~ matchesRequest type value item) ->
        payload = Error "Group item not found" /\ calls = []).
Proof.
  intros Htype. destruct (typeEnum_getGroupItemType _ Htype) as [t Ht].
  unfold remove_from_group_execute, matchesRequest. rewrite Ht.
  destruct (findGroupItem s t value) as [item|] eqn:Hfind.
  - destruct (findGroupItem_some _ _ _ Hfind) as (its & Hits & Hin & Hty & Hv).
    exists Success, [deleteGroupItem (item_id item) (user_id (user s))].
    split; [reflexivity |]. split; [| split].
    + intros c [<- | []]. exists its, item. subst t. now repeat split.
    + now intros _.
    + intros Hnone. exfalso. apply (Hnone its item Hits Hin).
      subst t. now split.
  - exists (Error "Group item not found"), [].
    split; [unfold ret; now rewrite app_nil_r |]. split; [| split].
    + intros c [].
    + intros (its & item & Hits & Hin & Hty & Hv). exfalso.
      apply (findGroupItem_none _ _ Hfind Hits Hin).
      split; [congruence | assumption].
    + now intros _.
Qed.

Lemma find_without_group_name (l : list (Rule Action)) (r : Rule Action) :
  List.find (fun x => strictEq (option_map group_name (group x)) None) l
  = Some r ->
  group r = None.
Proof.
  intros H. apply find_some in H as [_ H].
  now destruct (group r).
Qed.

(** C10: add_to_group called without a group name returns
    [{ error: "Group not found" }] and makes no store call, whatever the
    session's rules and matched rule are: the rule the lookup selects for an
    undefined name, if any, has no group. *)
Theorem C10_add_to_group_without_name s (type value : string) tr :
  add_to_group_execute s None type value tr = (Error "Group not found", tr)
  /\ (forall r,
        List.find (fun x => strictEq (option_map group_name (group x)) None)
          (rules s) = Some r ->
        group r = None).
Proof.
  split; [| intros r; apply find_without_group_name].
  unfold add_to_group_execute, add_to_group_groupId.
  destruct (List.find _ (rules s)) as [r|] eqn:Hfind; [| reflexivity].
  now rewrite (find_without_group_name _ Hfind).
Qed.

End ToolProperties.

(** ** Properties of the registry and of the repair loop *)

Section SessionProperties.
Context {Condition Action : Type}.
Variable conditionSchema : Condition -> bool.
Variable createRuleSchema : string -> Condition -> list Action -> bool.
Variable getCreateRuleSchemaWithCategories :
  string * list string -> string -> Condition -> list Action -> bool.
Implicit Types (s : @Session Action) (condition : Condition)
  (tr : Trace (@StoreCall Condition Action)).

Lemma ret_atMostOneCall {A : Type} (a : A) :
  atMostOneCall (Condition := Condition) (Action := Action) (ret a).
Proof.
  intros tr. exists a, []. unfold ret. now rewrite app_nil_r; auto.
Qed.

Lemma call_atMostOneCall {A : Type} (c : @StoreCall Condition Action) (a : A) :
  atMostOneCall (call c ;; ret a).
Proof. intros tr. exists a, [c]. now auto. Qed.

Lemma edit_rule_execute_atMostOneCall s ruleName explanation condition :
  atMostOneCall (edit_rule_execute s ruleName explanation condition).
Proof.
  unfold edit_rule_execute.
  destruct (edit_rule_target s ruleName);
    [apply call_atMostOneCall | apply ret_atMostOneCall].
Qed.

Lemma create_rule_execute_atMostOneCall s (n : string)
  (condition : Condition) (acts : list Action) :
  atMostOneCall (create_rule_execute s n condition acts).
Proof. apply call_atMostOneCall. Qed.

Lemma add_to_group_execute_atMostOneCall s groupName (type value : string) :
  atMostOneCall
    (add_to_group_execute (Condition := Condition) s groupName type value).
Proof.
  unfold add_to_group_execute.
  destruct (add_to_group_groupId s groupName) as [gid|];
    [| apply ret_atMostOneCall].
  destruct (negb (gid =? "")); [| apply ret_atMostOneCall].
  destruct (getGroupItemType type);
    [apply call_atMostOneCall | apply ret_atMostOneCall].
Qed.

Lemma remove_from_group_execute_atMostOneCall s (type value : string) :
  atMostOneCall
    (remove_from_group_execute (Condition := Condition) s type value).
Proof.
  unfold remove_from_group_execute.
  destruct (getGroupItemType type) as [t|]; [| apply ret_atMostOneCall].
  destruct (findGroupItem s t value);
    [apply call_atMostOneCall | apply ret_atMostOneCall].
Qed.

(** The entries a lookup in the session's registry can return. *)
Lemma lookupTool_exposed s (n : string) (t : Tool) :
  lookupTool (tools conditionSchema createRuleSchema
     getCreateRuleSchemaWithCategories s) n = Some t ->
  (n = "edit_rule" /\ t = edit_rule conditionSchema s)
  \/ (n = "create_rule"
      /\ t = create_rule createRuleSchema getCreateRuleSchemaWithCategories s)
  \/ (exists cs, categories s = Some cs /\ n = "change_sender_category"
                 /\ t = getChangeCategoryTool cs)
  \/ (n = "add_to_group" /\ t = add_to_group s)
  \/ (matchedGroup s <> None /\ n = "remove_from_group"
      /\ t = remove_from_group s)
  \/ (n = "reply" /\ t = reply).
Proof.
  unfold lookupTool, tools.
  destruct (categories s) as [cs|], (matchedGroup s) as [g|];
    cbn [present app List.find fst snd];
    repeat match goal with
      | |- context [if (?a =? n) then _ else _] =>
          destruct (String.eqb_spec a n) as [<- | ?]
      end;
    cbn [option_map snd]; intros H; try discriminate;
    injection H as <-; eauto 12.
  all: try (right; right; left; eexists; eauto; fail).
  all: do 4 right; left; split; [discriminate | split; reflexivity].
Qed.

Lemma lookupTool_reply s : lookupTool (tools conditionSchema createRuleSchema
     getCreateRuleSchemaWithCategories s) "reply" = Some reply.
Proof.
  unfold lookupTool, tools.
  now destruct (categories s), (matchedGroup s).
Qed.

Lemma no_execute_is_reply s (n : string) (t : Tool) :
  lookupTool (tools conditionSchema createRuleSchema
     getCreateRuleSchemaWithCategories s) n = Some t -> execute t = None -> n = "reply".
Proof.
  intros H Hex.
  destruct (lookupTool_exposed _ _ H)
    as [[_ ->] | [[_ ->] | [(cs & _ & _ & ->) | [[_ ->]
       | [(_ & _ & ->) | [-> _]]]]]];
    try discriminate; reflexivity.
Qed.

Lemma execute_atMostOneCall s (n : string) (t : Tool)
  (run : Args t -> Exec) (a : Args t) :
  lookupTool (tools conditionSchema createRuleSchema
     getCreateRuleSchemaWithCategories s) n = Some t -> execute t = Some run ->
  atMostOneCall (run a).
Proof.
  intros H.
  destruct (lookupTool_exposed _ _ H)
    as [[_ ->] | [[_ ->] | [(cs & _ & _ & ->) | [[_ ->]
       | [(_ & _ & ->) | [_ ->]]]]]];
    cbn [execute]; intros Hex; try discriminate;
    injection Hex as <-; cbn [Args] in a.
  - destruct a as [[ruleName explanation] condition].
    apply edit_rule_execute_atMostOneCall.
  - destruct a as [[n' condition] acts].
    apply create_rule_execute_atMostOneCall.
  - apply ret_atMostOneCall.
  - destruct a as [[groupName type] value].
    apply add_to_group_execute_atMostOneCall.
  - apply remove_from_group_execute_atMostOneCall.
Qed.

Lemma executed_app (a b : list (@Step Condition Action)) :
  executed (a ++ b) = (executed a ++ executed b)%list.
Proof. apply filter_app. Qed.

(** C8: the registry of a session holds change_sender_category exactly
    when the session has a category list, remove_from_group exactly when the
    matched rule exists and has a group, and edit_rule, create_rule,
    add_to_group and reply in every session. *)
Theorem C8_registry_by_session s :
  (In "change_sender_category" (toolNames (tools conditionSchema createRuleSchema
     getCreateRuleSchemaWithCategories s))
   <-> categories s <> None)
  /\ (In "remove_from_group" (toolNames (tools conditionSchema createRuleSchema
     getCreateRuleSchemaWithCategories s))
      <-> exists r g, matchedRule s = Some r /\ group r = Some g)
  /\ In "edit_rule" (toolNames (tools conditionSchema createRuleSchema
     getCreateRuleSchemaWithCategories s))
  /\ In "create_rule" (toolNames (tools conditionSchema createRuleSchema
     getCreateRuleSchemaWithCategories s))
  /\ In "add_to_group" (toolNames (tools conditionSchema createRuleSchema
     getCreateRuleSchemaWithCategories s))
  /\ In "reply" (toolNames (tools conditionSchema createRuleSchema
     getCreateRuleSchemaWithCategories s)).
Proof.
  assert (present (matchedGroup s) = true
          <-> exists r g, matchedRule s = Some r /\ group r = Some g)
    as Hgroup.
  { unfold matchedGroup.
    destruct (matchedRule s) as [r|];
      [destruct (group r) as [g|] eqn:Hg |]; simpl; split;
      try discriminate; eauto;
      intros (r' & g' & Hr & Hg'); try discriminate.
    injection Hr as <-. congruence. }
  rewrite <- Hgroup. unfold toolNames, tools.
  destruct (categories s) as [cs|], (present (matchedGroup s));
    cbn [app List.map fst In];
    (split; [| split; [| repeat split; tauto]]); split; intros H;
    try tauto; try congruence;
    repeat destruct H as [H | H]; try discriminate; contradiction.
Qed.

(** C6: when the decision-maker chooses reply, the session ends at once
    with the reply's content as terminal reply, whatever budget is left:
    the reply tool is registered without an execute step, no store call is
    made and no further tool is executed. *)
Theorem C6_reply_ends_session s
  (choose : list (@Step Condition Action) -> ToolCall)
  (budget : nat) (history : list Step) tr (content : string) :
  choose history = {| toolName := "reply"; toolArgs := ReplyArgs content |} ->
  (exists t, lookupTool (tools conditionSchema createRuleSchema
     getCreateRuleSchemaWithCategories s) "reply" = Some t /\ execute t = None)
  /\ exists res,
      deliberate choose (tools conditionSchema createRuleSchema
     getCreateRuleSchemaWithCategories s) (S budget) history tr = (res, tr)
      /\ terminalReply res = Some content
      /\ steps res
         = (history ++ [ {| stepCall := choose history;
                            outcome := Terminal |} ])%list
      /\ executed (steps res) = executed history.
Proof.
  intros Hc. split.
  - exists reply. split; [apply lookupTool_reply | reflexivity].
  - cbn [deliberate]. rewrite Hc. cbn [toolName toolArgs].
    rewrite lookupTool_reply. cbn [parameters execute reply].
    eexists. split; [reflexivity |]. cbn [terminalReply steps replyContent].
    split; [reflexivity |]. split; [reflexivity |].
    rewrite executed_app. cbn. now rewrite app_nil_r.
Qed.

Lemma deliberate_exhausts_budget s
  (choose : list (@Step Condition Action) -> ToolCall) :
  (forall h, toolName (choose h) <> "reply") ->
  forall (budget : nat) (history : list Step) tr,
  exists res calls more,
    deliberate choose (tools conditionSchema createRuleSchema
     getCreateRuleSchemaWithCategories s) budget history tr
    = (res, (tr ++ calls)%list)
    /\ terminalReply res = None
    /\ steps res = (history ++ more)%list
    /\ List.length more = budget
    /\ List.length calls <= List.length (executed more).
Proof.
  intros Hnever. induction budget as [|budget IH]; intros history tr.
  - exists {| terminalReply := None; steps := history |}, [], [].
    cbn [deliberate]. unfold ret. rewrite !app_nil_r. auto.
  - cbn [deliberate].
    assert (forall st, isToolResult st = false ->
      exists res calls more,
        deliberate choose (tools conditionSchema createRuleSchema
     getCreateRuleSchemaWithCategories s) budget (history ++ [st]) tr
        = (res, (tr ++ calls)%list)
        /\ terminalReply res = None
        /\ steps res = (history ++ more)%list
        /\ List.length more = S budget
        /\ List.length calls <= List.length (executed more)) as Hrejected.
    { intros st Hst.
      destruct (IH (history ++ [st])%list tr)
        as (res & calls & more & Heq & Hnone & Hsteps & Hlen & Hcalls).
      exists res, calls, (st :: more).
      split; [exact Heq |]. split; [exact Hnone |].
      split; [now rewrite Hsteps, <- app_assoc |].
      split; [simpl; now rewrite Hlen |].
      unfold executed in *. cbn [List.filter]. now rewrite Hst. }
    destruct (lookupTool (tools conditionSchema createRuleSchema
     getCreateRuleSchemaWithCategories s) (toolName (choose history)))
      as [t|] eqn:Hlookup; [| now apply Hrejected].
    destruct (parameters t (toolArgs (choose history))) as [a|];
      [| now apply Hrejected].
    destruct (execute t) as [run|] eqn:Hexec.
    + destruct (execute_atMostOneCall _ _ a Hlookup Hexec tr)
        as (payload & calls1 & Hrun & Hone).
      set (st := {| stepCall := choose history;
                    outcome := ToolResult payload |}).
      destruct (IH (history ++ [st])%list (tr ++ calls1)%list)
        as (res & calls & more & Heq & Hnone & Hsteps & Hlen & Hcalls).
      exists res, (calls1 ++ calls)%list, (st :: more).
      split.
      { unfold bind. rewrite Hrun. fold st. now rewrite Heq, app_assoc. }
      split; [exact Hnone |].
      split; [now rewrite Hsteps, <- app_assoc |].
      split; [simpl; now rewrite Hlen |].
      unfold executed in *. cbn [List.filter isToolResult outcome st].
      rewrite length_app. simpl. lia.
    + exfalso. apply (Hnever history).
      exact (no_execute_is_reply _ _ Hlookup Hexec).
Qed.

(** C7: with a decision-maker that never chooses reply, the session runs
    through its budget of five steps and stops: it returns without a
    terminal reply, with the log of the five calls it was given, at most
    five of which were executed, and at most five store calls were made. *)
Theorem C7_budget_bound s (dm : @DecisionMaker Condition Action) tr :
  (forall sys p schemas h, toolName (dm sys p schemas h) <> "reply") ->
  exists res calls,
    processUserRequest conditionSchema createRuleSchema
      getCreateRuleSchemaWithCategories s dm tr
    = (res, (tr ++ calls)%list)
    /\ terminalReply res = None
    /\ List.length (toolCallLog res) = 5
    /\ List.length (executed (steps res)) <= 5
    /\ List.length calls <= 5.
Proof.
  intros Hnever.
  unfold processUserRequest, chatCompletionTools.
  match goal with
  | |- context [deliberate ?choose _ _ _ _] =>
      destruct (@deliberate_exhausts_budget s choose
                  (fun h => Hnever _ _ _ h) maxSteps [] tr)
        as (res & calls & more & Heq & Hnone & Hsteps & Hlen & Hcalls)
  end.
  exists res, calls. split; [exact Heq |]. split; [exact Hnone |].
  cbn [app] in Hsteps.
  assert (List.length (executed more) <= List.length more) as Hex
    by apply filter_length_le.
  unfold toolCallLog. rewrite length_map, Hsteps.
  change maxSteps with 5 in Hlen. repeat split; lia.
Qed.

End SessionProperties.

(** ** The end-to-end scenarios *)

(** The edit of the newsletter scenario: the store is asked to replace the
    condition of "Newsletter", keeping its name and actions. *)
Example newsletter_edit :
  edit_rule_execute (scenarioSession None) (Some "Newsletter")
    "add the subject" "subject=Weekly Digest" []
  = (Success,
     [safeUpdateRule "rule-2"
        {| body_name := "Newsletter";
           body_condition := "subject=Weekly Digest";
           body_actions := [tt] |}
        "user-1" None None]).
Proof. reflexivity. Qed.

(** The removal of the receipts scenario: "thanks" is not an item of the
    group, nothing is deleted. *)
Example receipts_remove_absent :
  remove_from_group_execute (Condition := string)
    (scenarioSession (Some receiptsRule)) "subject" "thanks" []
  = (Error "Group item not found", []).
Proof. reflexivity. Qed.

(** The whole newsletter session: one edit, then the reply ends it with
    budget to spare. *)
Example newsletter_session :
  processUserRequest anyCondition anyRule anyRuleWithCategories
    (scenarioSession None) editThenReply []
  = ({| terminalReply := Some "Done.";
        steps :=
          [ {| stepCall := editThenReply "" "" [] [];
               outcome := ToolResult Success |};
            {| stepCall := {| toolName := "reply";
                              toolArgs := ReplyArgs "Done." |};
               outcome := Terminal |} ] |},
     [safeUpdateRule "rule-2"
        {| body_name := "Newsletter";
           body_condition := "subject=Weekly Digest";
           body_actions := [tt] |}
        "user-1" None None]).
Proof. reflexivity. Qed.

(** C1, as first stated, fails on an empty [ruleName]: no rule is named by
    the empty string, yet edit_rule updates the matched rule instead of
    returning an error. *)
Lemma C1_empty_name_counterexample :
  claimedTarget (scenarioSession (Some receiptsRule)) (Some "") = None
  /\ edit_rule_execute (scenarioSession (Some receiptsRule)) (Some "")
       "explanation" "subject=Weekly Digest" []
     = (Success,
        [conditionUpdate (scenarioSession (Some receiptsRule)) receiptsRule
           "subject=Weekly Digest"])
  /\ ~ editRuleAsClaimed (scenarioSession (Some receiptsRule)) (Some "")
        "explanation" "subject=Weekly Digest" [].
Proof.
  split; [reflexivity |]. split; [reflexivity |].
  unfold editRuleAsClaimed. cbn. discriminate.
Qed.

Lemma C1_edit_rule_resolution_witness :
  firstNamed "Newsletter" (rules (scenarioSession (Some receiptsRule)))
    newsletterRule
  /\ edit_rule_execute (scenarioSession (Some receiptsRule))
       (Some "Newsletter") "add the subject" "subject=Weekly Digest" []
     = (Success,
        [conditionUpdate (scenarioSession (Some receiptsRule)) newsletterRule
           "subject=Weekly Digest"]).
Proof.
  assert (firstNamed "Newsletter"
            (rules (scenarioSession (Some receiptsRule))) newsletterRule)
    as Hfirst.
  { exists [], [receiptsRule]. repeat split. intros x []. }
  split; [exact Hfirst |].
  destruct (C1_edit_rule_resolution (scenarioSession (Some receiptsRule))
              (Some "Newsletter") "add the subject" "subject=Weekly Digest" [])
    as [Hnamed _].
  destruct (Hnamed "Newsletter" eq_refl ltac:(discriminate)) as [Hupdate _].
  exact (Hupdate newsletterRule Hfirst).
Defined.

Lemma C3_static_conditions_in_one_block_witness :
  2 <= List.length (setFields newsletterRule)
  /\ exists pre inner post,
      ruleToXML newsletterRule
        = pre ++ "<static_conditions>" ++ inner ++ "</static_conditions>"
          ++ post
      /\ ruleToXML (withoutStatic newsletterRule) = pre ++ post
      /\ includes ("<conditional_operator>"
                   ++ LogicalOperator_str (conditionalOperator newsletterRule)
                   ++ "</conditional_operator>") pre = true
      /\ (forall f, In f (setFields newsletterRule) ->
           includes (element f) inner = true)
      /\ stripLayout inner
         = stripLayout (joinAll (List.map element (setFields newsletterRule))).
Proof.
  assert (2 <= List.length (setFields newsletterRule)) as Hset
    by (cbn; lia).
  split; [exact Hset |].
  exact (proj1 (C3_static_conditions_in_one_block newsletterRule) Hset).
Defined.

Lemma C4_edit_rule_carries_name_and_actions_witness :
  edit_rule_execute (scenarioSession None) (Some "Newsletter")
    "add the subject" "subject=Weekly Digest" []
  = (Success,
     [safeUpdateRule "rule-2"
        {| body_name := "Newsletter";
           body_condition := "subject=Weekly Digest";
           body_actions := [tt] |}
        "user-1" None None])
  /\ exists rule,
      edit_rule_target (scenarioSession None) (Some "Newsletter") = Some rule
      /\ [safeUpdateRule "rule-2"
            {| body_name := "Newsletter";
               body_condition := "subject=Weekly Digest";
               body_actions := [tt] |}
            "user-1" None None]
         = ([] ++ [safeUpdateRule (rule_id rule)
                     {| body_name := name rule;
                        body_condition := "subject=Weekly Digest";
                        body_actions := actions rule |}
                     (user_id (user (scenarioSession None))) None None])%list.
Proof.
  split; [reflexivity |].
  apply (C4_edit_rule_carries_name_and_actions (scenarioSession None)
           (Some "Newsletter") "add the subject" "subject=Weekly Digest" []).
  reflexivity.
Defined.

Lemma C5_remove_from_group_exact_match_witness :
  typeEnum "subject" = true
  /\ exists payload calls,
      remove_from_group_execute (Condition := string)
        (scenarioSession (Some receiptsRule)) "subject" "Invoice" []
      = (payload, ([] ++ calls)%list)
      /\ (forall c, In c calls ->
            exists its item,
              matchedGroupItems (scenarioSession (Some receiptsRule))
              = Some its
              /\ In item its
              /\ matchesRequest "subject" "Invoice" item
              /\ c = deleteGroupItem (item_id item)
                       (user_id (user (scenarioSession (Some receiptsRule)))))
      /\ ((exists its item,
              matchedGroupItems (scenarioSession (Some receiptsRule))
              = Some its
              /\ In item its /\ matchesRequest "subject" "Invoice" item) ->
          payload = Success /\ List.length calls = 1)
      /\ ((forall its item,
              matchedGroupItems (scenarioSession (Some receiptsRule))
              = Some its ->
              In item its -> ~ matchesRequest "subject" "Invoice" item) ->
          payload = Error "Group item not found" /\ calls = []).
Proof.
  split; [reflexivity |].
  apply (C5_remove_from_group_exact_match (Condition := string)
           (scenarioSession (Some receiptsRule)) "subject" "Invoice" []).
  reflexivity.
Defined.

Lemma C6_reply_ends_session_witness :
  editThenReply "" "" []
    [ {| stepCall := editThenReply "" "" [] [];
         outcome := ToolResult Success |} ]
  = {| toolName := "reply"; toolArgs := ReplyArgs "Done." |}
  /\ exists res,
      deliberate (editThenReply "" "" [])
        (tools anyCondition anyRule anyRuleWithCategories
           (scenarioSession None)) 4
        [ {| stepCall := editThenReply "" "" [] [];
             outcome := ToolResult Success |} ] []
      = (res, [])
      /\ terminalReply res = Some "Done.".
Proof.
  split; [reflexivity |].
  destruct (C6_reply_ends_session anyCondition anyRule anyRuleWithCategories
              (scenarioSession None) (editThenReply "" "" []) 3
              [ {| stepCall := editThenReply "" "" [] [];
                   outcome := ToolResult Success |} ] [] (content := "Done.")
              eq_refl)
    as [_ (res & Hrun & Hreply & _)].
  exists res. split; [exact Hrun | exact Hreply].
Defined.

Lemma C7_budget_bound_witness :
  (forall sys p schemas h, toolName (alwaysEdit sys p schemas h) <> "reply")
  /\ exists res calls,
      processUserRequest anyCondition anyRule anyRuleWithCategories
        (scenarioSession None) alwaysEdit []
      = (res, ([] ++ calls)%list)
      /\ terminalReply res = None
      /\ List.length (toolCallLog res) = 5
      /\ List.length (executed (steps res)) <= 5
      /\ List.length calls <= 5.
Proof.
  assert (forall sys p schemas h,
            toolName (alwaysEdit sys p schemas h) <> "reply") as Hnever
    by (intros; discriminate).
  split; [exact Hnever |].
  exact (C7_budget_bound anyCondition anyRule anyRuleWithCategories
           (scenarioSession None) alwaysEdit [] Hnever).
Defined.

Lemma C9_empty_string_is_absent_witness :
  blank (from blankStaticRule) /\ blank (to blankStaticRule)
  /\ blank (subject blankStaticRule) /\ blank (body blankStaticRule)
  /\ staticConditionsXML blankStaticRule = ""
  /\ ruleToXML blankStaticRule = ruleToXML (withoutStatic blankStaticRule).
Proof.
  assert (blank (from blankStaticRule)) as Hf by (right; reflexivity).
  assert (blank (to blankStaticRule)) as Ht by (left; reflexivity).
  assert (blank (subject blankStaticRule)) as Hs by (right; reflexivity).
  assert (blank (body blankStaticRule)) as Hb by (right; reflexivity).
  repeat (split; [assumption |]).
  exact (proj2 (proj2 (C9_empty_string_is_absent blankStaticRule))
           Hf Ht Hs Hb).
Defined.

Lemma C10_add_to_group_without_name_witness :
  List.find (fun x => strictEq (option_map group_name (group x)) None)
    (rules (scenarioSession (Some receiptsRule))) = Some newsletterRule
  /\ group newsletterRule = None
  /\ add_to_group_execute (Condition := string)
       (scenarioSession (Some receiptsRule)) None "subject" "Invoice" []
     = (Error "Group not found", []).
Proof.
  destruct (C10_add_to_group_without_name (Condition := string)
              (scenarioSession (Some receiptsRule)) "subject" "Invoice" [])
    as [Herror Hnogroup].
  split; [reflexivity |].
  split; [exact (Hnogroup newsletterRule eq_refl) | exact Herror].
Defined.

(** ** Further properties of the serializer *)

Lemma prefix_append_l (pat a b : string) :
  prefix pat a = true -> prefix pat (a ++ b) = true.
Proof.
  revert a. induction pat as [|c pat IH]; intros a H.
  - now destruct (a ++ b).
  - destruct a as [|x a]; [discriminate |]. cbn [append prefix] in *.
    destruct (ascii_dec c x); [now apply IH | discriminate].
Qed.

Lemma includes_earlier (pat a b : string) :
  includes pat a = true -> includes pat (a ++ b) = true.
Proof.
  induction a as [|x a IH]; cbn [includes append]; intros H.
  - destruct pat; [| discriminate]. now destruct b.
  - destruct (prefix pat (String x a)) eqn:P.
    + change (String x (a ++ b)) with (String x a ++ b).
      now rewrite (prefix_append_l _ _ b P).
    + rewrite (IH H). now destruct (prefix pat (String x (a ++ b))).
Qed.

Lemma includes_self (x : string) : includes x x = true.
Proof.
  rewrite <- (append_empty_r x) at 2. apply includes_here.
Qed.

Lemma includes_concat (sep x : string) (l : list string) :
  In x l -> includes x (String.concat sep l) = true.
Proof.
  induction l as [|y l IH]; [intros [] |].
  intros [-> | Hin].
  - destruct l; cbn [String.concat];
      [apply includes_self | apply includes_here].
  - destruct l as [|z l]; [destruct Hin |].
    cbn [String.concat]. do 2 apply includes_later.
    exact (IH Hin).
Qed.

Lemma prefix_sound (pat s : string) :
  prefix pat s = true -> exists rest, s = pat ++ rest.
Proof.
  revert s. induction pat as [|c pat IH]; intros s H.
  - now exists s.
  - destruct s as [|x s]; [discriminate |]. cbn [prefix] in H.
    destruct (ascii_dec c x) as [-> |]; [| discriminate].
    destruct (IH s H) as [rest ->]. now exists rest.
Qed.

(** [includes] holds exactly of the texts that contain the pattern. *)
Lemma includes_sound (pat s : string) :
  includes pat s = true <-> exists a b, s = a ++ pat ++ b.
Proof.
  split; [| intros (a & b & ->); now apply includes_intro with a b].
  induction s as [|x s IH]; cbn [includes]; intros H.
  - destruct (prefix pat "") eqn:P; [| discriminate].
    destruct (prefix_sound _ _ P) as [rest ->]. now exists "", rest.
  - destruct (prefix pat (String x s)) eqn:P.
    + destruct (prefix_sound _ _ P) as [rest ->]. now exists "", rest.
    + destruct (IH H) as (a & b & ->). now exists (String x a), b.
Qed.

Section SerializerCoverage.
Context {Action : Type}.
Implicit Types (rule : Rule Action).


Lemma includes_in_category_conditions rule (pat : string) :
  includes pat (categoryConditionsXML rule) = true ->
  includes pat (ruleToXML rule) = true.
Proof.
  intros H. unfold ruleToXML, ruleTail.
  do 7 apply includes_later. now apply includes_earlier.
Qed.


(** A rule with at least one category filter is presented with every
    one of its categories by name and, when it has one, with its filter
    type. *)
Theorem category_filters_presented rule (cs : list Category) :
  categoryFilters rule = Some cs -> cs <> [] ->
  (forall c, In c cs ->
     includes ("<category>" ++ category_name c ++ "</category>")
       (ruleToXML rule) = true)
  /\ (forall ft, categoryFilterType rule = Some ft ->
        includes ("<filter_type>" ++ CategoryFilterType_str ft
                  ++ "</filter_type>") (ruleToXML rule) = true).
Proof.
  intros Hcs Hne.
  assert (hasCategoryConditions rule = true) as Hhas.
  { unfold hasCategoryConditions. rewrite Hcs. now destruct cs. }
  split.
  - intros c Hin. apply includes_in_category_conditions.
    unfold categoryConditionsXML. rewrite Hhas, Hcs.
    do 6 apply includes_later. apply includes_earlier.
    apply includes_concat.
    exact (in_map (fun category =>
                     "<category>" ++ category_name category ++ "</category>")
             cs c Hin).
  - intros ft Hft. apply includes_in_category_conditions.
    unfold categoryConditionsXML. rewrite Hhas, Hft.
    do 3 apply includes_later. now apply includes_earlier, includes_self.
Qed.

(** Empty values of the optional parts are serialized as absent ones:
    empty-string instructions like no instructions, an empty list of
    category filters like no list; without category filters the filter
    type is not presented at all. *)
Theorem empty_optionals_are_absent rule (ft : option CategoryFilterType) :
  ruleToXML (withInstructions rule (Some ""))
  = ruleToXML (withInstructions rule None)
  /\ ruleToXML (withCategoryFilters rule (Some []) ft)
     = ruleToXML (withCategoryFilters rule None None)
  /\ ruleToXML (withCategoryFilters rule None ft)
     = ruleToXML (withCategoryFilters rule None None).
Proof. repeat split. Qed.

Lemma itemXML_anonymousItem (item : GroupItem) :
  itemXML (anonymousItem item) = itemXML item.
Proof. reflexivity. Qed.

Lemma groupItemsXML_anonymousGroup (g : Group) :
  groupItemsXML (anonymousGroup g) = groupItemsXML g.
Proof.
  unfold groupItemsXML, anonymousGroup. cbn [items].
  destruct (items g) as [its|]; [| reflexivity].
  cbn [option_map]. rewrite map_map.
  rewrite (map_ext _ _ itemXML_anonymousItem). reflexivity.
Qed.

(** The serialized rule does not depend on the rule's id, on its actions,
    on the id of its group or on the ids of the group's items: none of them
    is presented. *)
Theorem serialization_ignores_ids_and_actions rule :
  ruleToXML (anonymous rule) = ruleToXML rule.
Proof.
  unfold ruleToXML, ruleTail. f_equal. f_equal. f_equal. f_equal.
  unfold groupConditionXML. cbn [anonymous group].
  destruct (group rule) as [g|]; [| reflexivity].
  cbn [option_map]. rewrite groupItemsXML_anonymousGroup. reflexivity.
Qed.

End SerializerCoverage.

(** ** Further properties of the tools *)

Section ToolCoverage.
Context {Condition Action : Type}.
Variable conditionSchema : Condition -> bool.
Variable createRuleSchema : string -> Condition -> list Action -> bool.
Variable getCreateRuleSchemaWithCategories :
  string * list string -> string -> Condition -> list Action -> bool.
Implicit Types (s : @Session Action) (condition : Condition)
  (tr : Trace (@StoreCall Condition Action)).

(** The mapper of item types accepts exactly the two strings the tool
    schemas accept, and maps them to different item types. *)
Theorem getGroupItemType_agrees_with_schema (type : string) :
  (getGroupItemType type = Some FROM <-> type = "from")
  /\ (getGroupItemType type = Some SUBJECT <-> type = "subject")
  /\ (getGroupItemType type = None <-> typeEnum type = false).
Proof.
  unfold getGroupItemType, typeEnum.
  destruct (String.eqb_spec type "from") as [-> | Hf];
    [repeat split; intros; try discriminate; reflexivity |].
  destruct (String.eqb_spec type "subject") as [-> | Hs];
    repeat split; intros; try discriminate; try reflexivity; congruence.
Qed.

(** The type names the serializer prints for group items are not the type
    names the group tools take: given one of them, the schema rejects it
    and remove_from_group answers with an invalid-type error and no store
    call. *)
Theorem serialized_item_type_is_rejected (t : GroupItemType) s
  (value : string) tr :
  typeEnum (GroupItemType_str t) = false
  /\ remove_from_group_execute s (GroupItemType_str t) value tr
     = (Error "Invalid group item type", tr).
Proof. now destruct t. Qed.

Lemma categoryEnum_In (cs : string * list string) (c : string) :
  categoryEnum cs c = true <-> c = "none" \/ c = fst cs \/ In c (snd cs).
Proof.
  unfold categoryEnum. rewrite existsb_exists. split.
  - intros (x & Hin & Heq). apply String.eqb_eq in Heq as ->.
    apply in_app_or in Hin as [[<- | Hin] | [<- | []]]; auto.
  - intros [-> | [-> | Hin]]; eexists; (split; [| apply String.eqb_refl]);
      apply in_or_app; simpl; auto.
Qed.

(** change_sender_category takes a category only if it is one of the
    session's categories or "none"; it then succeeds without any store
    call.  Any other category is rejected by the schema. *)
Theorem change_sender_category_is_validated_and_pure
  (cs : string * list string) (sender category : string) tr :
  ((category = "none" \/ category = fst cs \/ In category (snd cs)) ->
   exists a run,
     parameters (getChangeCategoryTool (Condition := Condition)
                   (Action := Action) cs)
       (ChangeSenderCategoryArgs sender category) = Some a
     /\ execute (getChangeCategoryTool cs) = Some run
     /\ run a tr = (Success, tr))
  /\ (~ (category = "none" \/ category = fst cs \/ In category (snd cs)) ->
      parameters (getChangeCategoryTool (Condition := Condition)
                    (Action := Action) cs)
        (ChangeSenderCategoryArgs sender category) = None).
Proof.
  split; intros H; cbn [parameters execute getChangeCategoryTool].
  - apply categoryEnum_In in H. rewrite H.
    eexists _, _. split; [reflexivity |]. split; reflexivity.
  - destruct (categoryEnum cs category) eqn:E; [| reflexivity].
    elim H. now apply categoryEnum_In.
Qed.

Lemma find_firstGrouped (n : string) (l : list (Rule Action))
  (r : Rule Action) (g : Group) :
  firstGrouped n l r g ->
  List.find (fun x => strictEq (option_map group_name (group x)) (Some n)) l
  = Some r.
Proof.
  intros (before & after & -> & Hg & Hn & Hbefore).
  induction before as [|x before IH]; cbn [app List.find].
  - rewrite Hg. cbn. now rewrite (proj2 (String.eqb_eq _ _) Hn).
  - destruct (group x) as [g'|] eqn:Hx; cbn.
    + rewrite (proj2 (String.eqb_neq _ _)
                 (Hbefore x g' (or_introl eq_refl) Hx)).
      apply IH. intros y gy Hy. apply Hbefore. now right.
    + apply IH. intros y gy Hy. apply Hbefore. now right.
Qed.

Lemma find_noneGrouped (n : string) (l : list (Rule Action)) :
  noneGrouped n l ->
  List.find (fun x => strictEq (option_map group_name (group x)) (Some n)) l
  = None.
Proof.
  intros Hnone. induction l as [|x l IH]; cbn [List.find]; [reflexivity |].
  assert (noneGrouped n l) as Hl
    by (intros y gy Hy; apply Hnone; now right).
  destruct (group x) as [g'|] eqn:Hx; cbn.
  - rewrite (proj2 (String.eqb_neq _ _)
               (Hnone x g' (or_introl eq_refl) Hx)).
    now apply IH.
  - now apply IH.
Qed.

(** add_to_group with a group name resolves the group as the group of the
    first rule of the session's rule set whose group has that name.  With
    a non-empty group id, a type the mapper knows yields the single call
    that adds the item with the mapped type and the value as given; a type
    the mapper does not know yields an invalid-type error and no call. *)
Theorem add_to_group_resolves_first_group s (n type value : string) tr
  (r : Rule Action) (g : Group) :
  firstGrouped n (rules s) r g -> group_id g <> "" ->
  (forall t, getGroupItemType type = Some t ->
     add_to_group_execute s (Some n) type value tr
     = (Success, (tr ++ [addGroupItem (group_id g) t value])%list))
  /\ (getGroupItemType type = None ->
      add_to_group_execute s (Some n) type value tr
      = (Error "Invalid group item type", tr)).
Proof.
  intros Hfirst Hid.
  assert (add_to_group_groupId s (Some n) = Some (group_id g)) as Hgid.
  { unfold add_to_group_groupId. rewrite (find_firstGrouped Hfirst).
    destruct Hfirst as (_ & _ & _ & -> & _). reflexivity. }
  unfold add_to_group_execute. rewrite Hgid.
  rewrite (proj2 (String.eqb_neq _ _) Hid). cbn [negb].
  split; [intros t -> | intros ->]; reflexivity.
Qed.

(** add_to_group answers "Group not found", with no store call and before
    looking at the type, when no rule of the session's rule set has a group
    of the given name (the matched rule is not consulted), and when the
    group it finds has an empty id. *)
Theorem add_to_group_unknown_group s (n type value : string) tr :
  (noneGrouped n (rules s) ->
   add_to_group_execute s (Some n) type value tr
   = (Error "Group not found", tr))
  /\ (forall r g, firstGrouped n (rules s) r g -> group_id g = "" ->
        add_to_group_execute s (Some n) type value tr
        = (Error "Group not found", tr)).
Proof.
  split.
  - intros Hnone. unfold add_to_group_execute, add_to_group_groupId.
    now rewrite (find_noneGrouped Hnone).
  - intros r g Hfirst Hid.
    unfold add_to_group_execute, add_to_group_groupId.
    rewrite (find_firstGrouped Hfirst).
    destruct Hfirst as (_ & _ & _ & -> & _). cbn [option_map].
    now rewrite Hid.
Qed.

Lemma find_firstMatching (t : GroupItemType) (value : string)
  (its : list GroupItem) (item : GroupItem) :
  firstMatching t value its item ->
  List.find (fun x => GroupItemType_eqb (item_type x) t
                      && (item_value x =? value)) its = Some item.
Proof.
  intros (before & after & -> & Ht & Hv & Hbefore).
  induction before as [|x before IH]; cbn [app List.find].
  - rewrite (proj2 (GroupItemType_eqb_eq _ _) Ht).
    now rewrite (proj2 (String.eqb_eq _ _) Hv).
  - destruct (GroupItemType_eqb (item_type x) t && (item_value x =? value))
      eqn:E.
    + exfalso. apply andb_true_iff in E as [E1 E2].
      apply (Hbefore x (or_introl eq_refl)). split.
      * now apply GroupItemType_eqb_eq.
      * now apply String.eqb_eq.
    + apply IH. intros y Hy. apply Hbefore. now right.
Qed.

(** When several items of the matched rule's group have the requested
    type and value, remove_from_group deletes the first of them in the
    order of the group's item list, and only that one. *)
Theorem remove_from_group_deletes_first_match s (type value : string) tr
  (t : GroupItemType) (its : list GroupItem) (item : GroupItem) :
  getGroupItemType type = Some t ->
  matchedGroupItems s = Some its ->
  firstMatching t value its item ->
  remove_from_group_execute s type value tr
  = (Success,
     (tr ++ [deleteGroupItem (item_id item) (user_id (user s))])%list).
Proof.
  intros Ht Hits Hfirst.
  unfold remove_from_group_execute, findGroupItem.
  now rewrite Ht, Hits, (find_firstMatching Hfirst).
Qed.

Ltac tool_outcome_success :=
  left; split; [reflexivity |]; right; eexists; split;
  [reflexivity | reflexivity].

Ltac tool_outcome_error :=
  right; eexists; split; [reflexivity |]; split;
  [cbn; tauto | reflexivity].

(** Whatever tool of the session's registry is executed, on whatever
    validated arguments: either it succeeds and has appended to the trace
    exactly one store call, of the kind that belongs to the tool (no call
    for change_sender_category), or it returns one of the four error
    reasons and leaves the trace as it was.  Earlier calls are never
    touched. *)
Theorem exposed_tool_outcome s (n : string) (t : Tool)
  (run : Args t -> Exec) (a : Args t) tr :
  lookupTool (tools conditionSchema createRuleSchema
                getCreateRuleSchemaWithCategories s) n = Some t ->
  execute t = Some run ->
  toolOutcome n tr (run a tr).
Proof.
  intros H.
  destruct (lookupTool_exposed _ _ _ _ _ H)
    as [[-> ->] | [[-> ->] | [(cs & _ & -> & ->) | [[-> ->]
       | [(_ & -> & ->) | [_ ->]]]]]];
    cbn [execute]; intros Hex; try discriminate;
    injection Hex as <-; cbn [Args] in a; unfold toolOutcome.
  - destruct a as [[ruleName explanation] condition].
    unfold edit_rule_execute.
    destruct (edit_rule_target s ruleName);
      [tool_outcome_success | tool_outcome_error].
  - destruct a as [[n' condition] acts]. tool_outcome_success.
  - left. split; [reflexivity |]. left. now split.
  - destruct a as [[groupName type] value].
    unfold add_to_group_execute.
    destruct (add_to_group_groupId s groupName) as [gid|];
      [| tool_outcome_error].
    destruct (negb (gid =? "")); [| tool_outcome_error].
    destruct (getGroupItemType type);
      [tool_outcome_success | tool_outcome_error].
  - destruct a as [type value]. cbn [fst snd].
    unfold remove_from_group_execute.
    destruct (getGroupItemType type) as [ty|]; [| tool_outcome_error].
    destruct (findGroupItem s ty value);
      [tool_outcome_success | tool_outcome_error].
Qed.

(** The names of a session's registry are pairwise distinct, and reply is
    the one registered tool without an execute step. *)
Theorem reply_is_the_only_terminal_tool s :
  NoDup (toolNames (tools conditionSchema createRuleSchema
                      getCreateRuleSchemaWithCategories s))
  /\ forall n t,
      lookupTool (tools conditionSchema createRuleSchema
                    getCreateRuleSchemaWithCategories s) n = Some t ->
      (execute t = None <-> n = "reply").
Proof.
  split.
  - unfold toolNames, tools.
    destruct (categories s), (present (matchedGroup s));
      cbn [app List.map fst];
      repeat (constructor; [cbn; intuition discriminate |]); constructor.
  - intros n t H. split.
    + exact (no_execute_is_reply _ _ _ _ _ H).
    + intros ->. rewrite lookupTool_reply in H. now injection H as <-.
Qed.

End ToolCoverage.

(** ** Properties of the prompt *)

Section PromptCoverage.
Context {Action : Type}.
Implicit Types (s : @Session Action).

(** With a matched rule the prompt presents that rule and nothing of the
    session's rule set: it is the same prompt whatever the rule set is. *)
Theorem prompt_with_match_hides_rule_set s (r : Rule Action) :
  matchedRule s = Some r ->
  includes (ruleToXML r) (prompt s) = true
  /\ forall rs, prompt (withRules s rs) = prompt s.
Proof.
  intros Hm. split.
  - unfold prompt. rewrite Hm.
    do 2 apply includes_later. apply includes_earlier, includes_self.
  - intros rs. unfold prompt. cbn [withRules matchedRule user
      userRequestEmail originalEmail categories senderCategory].
    now rewrite Hm.
Qed.

(** Without a matched rule the prompt says so and presents every rule of
    the session's rule set. *)
Theorem prompt_without_match_lists_every_rule s :
  matchedRule s = None ->
  includes "No rule matched" (prompt s) = true
  /\ forall r, In r (rules s) -> includes (ruleToXML r) (prompt s) = true.
Proof.
  intros Hm. split.
  - unfold prompt. rewrite Hm.
    do 2 apply includes_later. apply includes_earlier, includes_self.
  - intros r Hin. unfold prompt. rewrite Hm.
    do 7 apply includes_later. apply includes_earlier.
    do 2 apply includes_later. apply includes_earlier.
    apply includes_concat. now apply in_map.
Qed.

(** The optional sections of the prompt: an empty profile text is treated
    like no profile text; without a category list the sender's category is
    not presented at all; with a category list it is presented, and a
    sender without category is presented as the text "null". *)
Theorem prompt_optional_sections s :
  prompt (withAbout s (Some "")) = prompt (withAbout s None)
  /\ (categories s = None ->
      forall c, prompt (withSenderCategory s c) = prompt s)
  /\ (categories s <> None -> senderCategory s = None ->
      includes ("<sender_category>" ++ nl ++ "null" ++ nl
                ++ "</sender_category>") (prompt s) = true)
  /\ (forall c, categories s <> None -> senderCategory s = Some c ->
      includes ("<sender_category>" ++ nl ++ c ++ nl
                ++ "</sender_category>") (prompt s) = true).
Proof.
  split; [reflexivity |]. split; [| split].
  - intros Hc c. unfold prompt.
    cbn [withSenderCategory matchedRule user rules
      userRequestEmail originalEmail categories senderCategory].
    now rewrite Hc.
  - intros Hc Hs. unfold prompt. rewrite Hs.
    destruct (categories s); [| now elim Hc].
    do 27 apply includes_later. apply includes_self.
  - intros c Hc Hs. unfold prompt. rewrite Hs.
    destruct (categories s); [| now elim Hc].
    do 27 apply includes_later. apply includes_self.
Qed.

End PromptCoverage.

(** ** The further properties at the scenario inputs *)


Lemma category_filters_presented_witness :
  categoryFilters filteredRule
  = Some [ {| category_name := "Marketing" |};
           {| category_name := "Newsletter" |} ]
  /\ includes "<category>Newsletter</category>" (ruleToXML filteredRule)
     = true
  /\ includes "<filter_type>EXCLUDE</filter_type>" (ruleToXML filteredRule)
     = true.
Proof.
  destruct (category_filters_presented filteredRule eq_refl
              ltac:(discriminate)) as [Hcats Htype].
  split; [reflexivity |]. split.
  - apply (Hcats {| category_name := "Newsletter" |}). right. now left.
  - exact (Htype EXCLUDE eq_refl).
Defined.

Lemma change_sender_category_is_validated_and_pure_witness :
  In "Newsletter" (snd ("Marketing", ["Newsletter"]))
  /\ (exists a run,
        parameters (getChangeCategoryTool (Condition := string)
                      (Action := unit) ("Marketing", ["Newsletter"]))
          (ChangeSenderCategoryArgs "shop@example.com" "Newsletter") = Some a
        /\ execute (getChangeCategoryTool ("Marketing", ["Newsletter"]))
           = Some run
        /\ run a [] = (Success, []))
  /\ parameters (getChangeCategoryTool (Condition := string)
                   (Action := unit) ("Marketing", ["Newsletter"]))
       (ChangeSenderCategoryArgs "shop@example.com" "Receipts") = None.
Proof.
  assert (In "Newsletter" (snd ("Marketing", ["Newsletter"]))) as Hin
    by now left.
  split; [exact Hin |]. split.
  - exact (proj1 (change_sender_category_is_validated_and_pure
                    (Condition := string) (Action := unit)
                    ("Marketing", ["Newsletter"]) "shop@example.com"
                    "Newsletter" [])
             (or_intror (or_intror Hin))).
  - apply (proj2 (change_sender_category_is_validated_and_pure
                    (Condition := string) (Action := unit)
                    ("Marketing", ["Newsletter"]) "shop@example.com"
                    "Receipts" [])).
    cbn. intros [H | [H | [H | []]]]; discriminate.
Defined.

Lemma add_to_group_resolves_first_group_witness :
  firstGrouped "Receipts" (rules (scenarioSession None))
    receiptsRule receiptsGroup
  /\ group_id receiptsGroup <> ""
  /\ add_to_group_execute (Condition := string) (scenarioSession None)
       (Some "Receipts") "from" "billing@example.com" []
     = (Success, [addGroupItem "group-2" FROM "billing@example.com"])
  /\ add_to_group_execute (Condition := string) (scenarioSession None)
       (Some "Receipts") "FROM" "billing@example.com" []
     = (Error "Invalid group item type", []).
Proof.
  assert (firstGrouped "Receipts" (rules (scenarioSession None))
            receiptsRule receiptsGroup) as Hfirst.
  { exists [newsletterRule], []. repeat split.
    intros x g' [<- | []] Hg. discriminate. }
  assert (group_id receiptsGroup <> "") as Hid by discriminate.
  split; [exact Hfirst |]. split; [exact Hid |]. split.
  - exact (proj1 (@add_to_group_resolves_first_group string unit
                    (scenarioSession None) "Receipts" "from"
                    "billing@example.com" [] receiptsRule receiptsGroup
                    Hfirst Hid)
             FROM eq_refl).
  - exact (proj2 (@add_to_group_resolves_first_group string unit
                    (scenarioSession None) "Receipts" "FROM"
                    "billing@example.com" [] receiptsRule receiptsGroup
                    Hfirst Hid)
             eq_refl).
Defined.

Lemma add_to_group_unknown_group_witness :
  noneGrouped "Invoices" (rules duplicateSession)
  /\ option_map group_name (matchedGroup duplicateSession) = Some "Invoices"
  /\ add_to_group_execute (Condition := string) duplicateSession
       (Some "Invoices") "subject" "Invoice" []
     = (Error "Group not found", []).
Proof.
  assert (noneGrouped "Invoices" (rules duplicateSession)) as Hnone.
  { intros x g' [<- | [<- | []]] Hg; try discriminate.
    injection Hg as <-. discriminate. }
  split; [exact Hnone |]. split; [reflexivity |].
  exact (proj1 (@add_to_group_unknown_group string unit
                  duplicateSession "Invoices" "subject" "Invoice" [])
           Hnone).
Defined.

Lemma remove_from_group_deletes_first_match_witness :
  firstMatching SUBJECT "Invoice" duplicateItems
    {| item_id := "item-2"; item_type := SUBJECT; item_value := "Invoice" |}
  /\ remove_from_group_execute (Condition := string) duplicateSession
       "subject" "Invoice" []
     = (Success, [deleteGroupItem "item-2" "user-1"]).
Proof.
  assert (firstMatching SUBJECT "Invoice" duplicateItems
            {| item_id := "item-2"; item_type := SUBJECT;
               item_value := "Invoice" |}) as Hfirst.
  { exists [ {| item_id := "item-1"; item_type := FROM;
               item_value := "Invoice" |} ],
           [ {| item_id := "item-3"; item_type := SUBJECT;
               item_value := "Invoice" |} ].
    repeat split. intros x [<- | []] [Ht _]. discriminate. }
  split; [exact Hfirst |].
  exact (@remove_from_group_deletes_first_match string unit
           duplicateSession "subject" "Invoice" [] SUBJECT duplicateItems _
           eq_refl eq_refl Hfirst).
Defined.

Lemma exposed_tool_outcome_witness :
  lookupTool (tools anyCondition anyRule anyRuleWithCategories
                duplicateSession) "remove_from_group"
  = Some (remove_from_group duplicateSession)
  /\ toolOutcome "remove_from_group" []
       (remove_from_group_execute (Condition := string) duplicateSession
          "subject" "thanks" []).
Proof.
  split; [reflexivity |].
  exact (@exposed_tool_outcome string unit anyCondition anyRule
           anyRuleWithCategories duplicateSession "remove_from_group"
           (remove_from_group duplicateSession)
           (fun a => remove_from_group_execute duplicateSession
                       (fst a) (snd a))
           ("subject", "thanks") [] eq_refl eq_refl).
Defined.

Lemma reply_is_the_only_terminal_tool_witness :
  lookupTool (tools anyCondition anyRule anyRuleWithCategories
                categorySession) "reply" = Some reply
  /\ execute (reply (Condition := string) (Action := unit)) = None.
Proof.
  split; [reflexivity |].
  exact (proj2 (proj2 (@reply_is_the_only_terminal_tool string unit
                         anyCondition anyRule anyRuleWithCategories
                         categorySession)
                  "reply" reply eq_refl)
           eq_refl).
Defined.

Lemma prompt_with_match_hides_rule_set_witness :
  matchedRule (scenarioSession (Some receiptsRule)) = Some receiptsRule
  /\ includes (ruleToXML receiptsRule)
       (prompt (scenarioSession (Some receiptsRule))) = true
  /\ prompt (withRules (scenarioSession (Some receiptsRule)) [])
     = prompt (scenarioSession (Some receiptsRule)).
Proof.
  destruct (prompt_with_match_hides_rule_set
              (scenarioSession (Some receiptsRule)) eq_refl)
    as [Hrule Hsame].
  split; [reflexivity |]. split; [exact Hrule | exact (Hsame [])].
Defined.

Lemma prompt_without_match_lists_every_rule_witness :
  matchedRule categorySession = None
  /\ includes "No rule matched" (prompt categorySession) = true
  /\ includes (ruleToXML newsletterRule) (prompt categorySession) = true.
Proof.
  destruct (prompt_without_match_lists_every_rule categorySession eq_refl)
    as [Hnone Hall].
  split; [reflexivity |]. split; [exact Hnone |].
  apply Hall. right. right. now left.
Defined.

Lemma prompt_optional_sections_witness :
  categories categorySession <> None
  /\ senderCategory categorySession = None
  /\ includes ("<sender_category>" ++ nl ++ "null" ++ nl
               ++ "</sender_category>") (prompt categorySession) = true.
Proof.
  assert (categories categorySession <> None) as Hc by discriminate.
  split; [exact Hc |]. split; [reflexivity |].
  exact (proj1 (proj2 (proj2 (prompt_optional_sections categorySession)))
           Hc eq_refl).
Defined.
